(** * Beam analysis report generator: a shallow embedding of [code.py]

    The Python class [BeamReportGenerator] loads a force table
    (columns [x], [Shear force], [Bending Moment]) with pandas, derives a
    few summary values and concatenates a LaTeX document out of raw string
    literals and formatted numbers.

    The embedding keeps the data as the program has it:
    - a cell of the table is an IEEE-754 binary64 number, modelled by the
      standard library's [spec_float] at precision 53 and [emax] 1024
      (the number its spreadsheet cell stores); pandas types a column of
      whole numbers int64 and any other column float64, which decides
      how a cell prints where the program gives no format and how the
      axis limits are computed;
    - the pandas reductions ([max], [min], [idxmax], [idxmin]), the boolean
      mask selection and [values[0]] are list functions, NaN handling
      included;
    - the format specifications [:.1f], [:.2f] and the default float
      rendering (shortest round-trip [repr]) are exact functions on the
      binary value;
    - Python exceptions are an error monad;
    - the wall clock and the spreadsheet are fields of an explicit [World];
    - the console, the files and the external typesetter of a whole run
      are the state and the host of module [IO]. *)

From Stdlib Require Import ZArith List String Ascii Bool Lia.
From Stdlib Require Import Floats.SpecFloat.
From Stdlib Require Import DecimalString.
Import ListNotations.

Local Open Scope string_scope.
Local Open Scope Z_scope.

(** ** Python exceptions as an error monad *)

Inductive exn : Type :=
| FileNotFoundError   (* pd.read_excel on a missing workbook *)
| KeyError            (* a required column or an index label is missing *)
| TypeError           (* subscripting [self.data] while it is still None *)
| AttributeError      (* calling a method of [self.data] while it is None *)
| ValueError          (* idxmax/idxmin over a column without a value:
                         attempt to get argmax of an empty sequence *)
| IndexError.         (* values[0] on an empty selection *)

Inductive result (A : Type) : Type :=
| Ok (a : A)
| Err (e : exn).
Arguments Ok {A} a.
Arguments Err {A} e.

Definition bind {A B : Type} (r : result A) (k : A -> result B) : result B :=
  match r with
  | Ok a => k a
  | Err e => Err e
  end.

Notation "x <- c1 ;; c2" := (bind c1 (fun x => c2))
  (at level 61, c1 at next level, right associativity).

(** ** Binary64 numbers *)

Module Float64.

Definition prec : Z := 53.
Definition emax : Z := 1024.

Definition float : Type := spec_float.

Definition nan : float := S754_nan.
Definition neg_inf : float := S754_infinity true.
Definition pos_inf : float := S754_infinity false.
Definition zero : float := S754_zero false.

(** An integer literal of the program, converted to binary64. *)
Definition of_Z (z : Z) : float := binary_normalize prec emax z 0 false.

(** The literal [0.5]. *)
Definition half : float := S754_finite false 4503599627370496 (-53).

Definition add : float -> float -> float := SFadd prec emax.
Definition sub : float -> float -> float := SFsub prec emax.
Definition div : float -> float -> float := SFdiv prec emax.
Definition abs : float -> float := SFabs.

Definition eqb : float -> float -> bool := SFeqb.
Definition ltb : float -> float -> bool := SFltb.
Definition leb : float -> float -> bool := SFleb.
(** Python's [a >= b]. *)
Definition geb (a b : float) : bool := SFleb b a.

Definition is_nan (f : float) : bool :=
  match f with
  | S754_nan => true
  | _ => false
  end.

Definition is_finite (f : float) : bool :=
  match f with
  | S754_zero _ | S754_finite _ _ _ => true
  | _ => false
  end.

End Float64.

Abbreviation float := Float64.float.

(** ** Python's rendering of floats *)

Module PyFormat.

Definition digit_char (d : Z) : ascii :=
  ascii_of_nat (48 + Z.to_nat d).

(** The decimal digits of a natural number, without leading zeros
    ([0] is rendered as ["0"]). *)
Definition Z_digits (z : Z) : string :=
  NilZero.string_of_uint (N.to_uint (Z.to_N z)).

(** Exactly [n] decimal digits: [z mod 10^n], zero padded on the left. *)
Fixpoint padded_digits (n : nat) (z : Z) : string :=
  match n with
  | O => EmptyString
  | S k => padded_digits k (z / 10) ++ String (digit_char (z mod 10)) EmptyString
  end.

Fixpoint zeros (n : nat) : string :=
  match n with
  | O => EmptyString
  | S k => String "0" (zeros k)
  end.

Definition sign_str (s : bool) : string := if s then "-" else "".

(** [round_half_even num den]: the integer nearest to [num / den]
    ([den > 0]), ties going to the even neighbour. *)
Definition round_half_even (num den : Z) : Z :=
  let q := num / den in
  let r := num mod den in
  match 2 * r ?= den with
  | Lt => q
  | Gt => q + 1
  | Eq => if Z.even q then q else q + 1
  end.

(** The magnitude [m * 2^e] scaled by [10^n] and rounded to an integer. *)
Definition scaled_magnitude (n : nat) (m : positive) (e : Z) : Z :=
  let p10 := 10 ^ Z.of_nat n in
  match e with
  | Zneg k => round_half_even (Zpos m * p10) (2 ^ Zpos k)
  | _ => Zpos m * 2 ^ e * p10
  end.

(** [format(f, ".nf")]: fixed notation with [n] digits after the point,
    correctly rounded from the exact binary value. *)
Definition fixed (n : nat) (f : float) : string :=
  match f with
  | S754_nan => "nan"
  | S754_infinity s => sign_str s ++ "inf"
  | S754_zero s =>
      sign_str s ++ "0" ++ (match n with O => "" | _ => "." ++ zeros n end)
  | S754_finite s m e =>
      let p10 := 10 ^ Z.of_nat n in
      let k := scaled_magnitude n m e in
      sign_str s ++ Z_digits (k / p10) ++
        (match n with O => "" | _ => "." ++ padded_digits n (k mod p10) end)
  end.

(** [f"{v:.1f}"] and [f"{v:.2f}"]. *)
Definition fmt1 : float -> string := fixed 1.
Definition fmt2 : float -> string := fixed 2.

(** *** The default rendering: [str(v)], [f"{v}"]

    Python prints the shortest decimal that reads back as the same
    binary64 number (the closest one when several have that length), in
    fixed notation when the decimal point falls within 16 places and in
    exponent notation otherwise. *)

(** Distances are measured in quarters of the unit in the last place:
    the number is [4m], its rounding interval is [[4m - below, 4m + 2]],
    where [below] is 1 at a power of two (the spacing halves there) and
    2 elsewhere. *)
Definition gap_below (m : positive) (e : Z) : Z :=
  if Pos.eqb m 4503599627370496 && Z.ltb (-1074) e then 1 else 2.

(** For a candidate of [n] significant digits, with the decimal point
    after [p] places: numerator and denominator of
    (quarter-ulp) / (unit of the last decimal digit). *)
Definition ratio (e p : Z) (n : Z) : Z * Z :=
  let E := e - 2 in
  (2 ^ Z.max E 0 * 10 ^ Z.max (n - p) 0,
   2 ^ Z.max (- E) 0 * 10 ^ Z.max (p - n) 0).

(** Least [p], searched upwards from [p0], with [m * 2^e < 10^p]. *)
Fixpoint decimal_point (fuel : nat) (m : positive) (e p0 : Z) : Z :=
  match fuel with
  | O => p0
  | S k =>
      let '(a, b) := ratio e p0 0 in
      if Z.ltb (4 * Zpos m * a) b then p0
      else decimal_point k m e (p0 + 1)
  end.

Definition decimal_point_estimate (m : positive) (e : Z) : Z :=
  (Zpos (digits2_pos m) + e - 1) * 30102 / 100000 - 1.

(** The shortest round-tripping digits, tried with [n], [n+1], ...
    significant digits: [(d, x)] stands for the decimal [d * 10^x]. *)
Fixpoint shortest_from (fuel : nat) (m : positive) (e p n : Z)
  : Z * Z :=
  let '(a, b) := ratio e p n in
  let v := 4 * Zpos m * a in
  let lo := (4 * Zpos m - gap_below m e) * a in
  let hi := (4 * Zpos m + 2) * a in
  let inside (d : Z) : bool :=
    if Z.even (Zpos m)
    then Z.leb lo (d * b) && Z.leb (d * b) hi
    else Z.ltb lo (d * b) && Z.ltb (d * b) hi in
  let d_lo := v / b in
  let d_hi := if Z.eqb (v mod b) 0 then d_lo else d_lo + 1 in
  let pick :=
    match inside d_lo, inside d_hi with
    | true, true =>
        match v - d_lo * b ?= d_hi * b - v with
        | Lt => Some d_lo
        | Gt => Some d_hi
        | Eq => Some (if Z.even d_lo then d_lo else d_hi)
        end
    | true, false => Some d_lo
    | false, true => Some d_hi
    | false, false => None
    end in
  match pick, fuel with
  | Some d, _ => (d, p - n)
  | None, O => (d_lo, p - n)
  | None, S k => shortest_from k m e p (n + 1)
  end.

Fixpoint strip_zeros (fuel : nat) (d x : Z) : Z * Z :=
  match fuel with
  | O => (d, x)
  | S k => if Z.eqb (d mod 10) 0 && negb (Z.eqb d 0)
           then strip_zeros k (d / 10) (x + 1) else (d, x)
  end.

Definition shortest_digits (m : positive) (e : Z) : string * Z :=
  let p := decimal_point 8 m e (decimal_point_estimate m e) in
  let '(d, x) := shortest_from 17 m e p 1 in
  let '(d, x) := strip_zeros 20 d x in
  let ds := Z_digits d in
  (ds, x + Z.of_nat (String.length ds)).

Definition two_digits (z : Z) : string :=
  if Z.ltb z 10 then "0" ++ Z_digits z else Z_digits z.

(** Lay out digits [ds] whose decimal point sits after [decpt] places. *)
Definition layout (ds : string) (decpt : Z) : string :=
  let nd := Z.of_nat (String.length ds) in
  if Z.leb decpt (-4) || Z.ltb 16 decpt then
    let ex := decpt - 1 in
    substring 0 1 ds ++
      (if Z.ltb 1 nd then "." ++ substring 1 (String.length ds - 1) ds else "") ++
      "e" ++ (if Z.ltb ex 0 then "-" else "+") ++ two_digits (Z.abs ex)
  else if Z.leb decpt 0 then
    "0." ++ zeros (Z.to_nat (- decpt)) ++ ds
  else if Z.leb nd decpt then
    ds ++ zeros (Z.to_nat (decpt - nd)) ++ ".0"
  else
    substring 0 (Z.to_nat decpt) ds ++ "." ++
      substring (Z.to_nat decpt) (String.length ds - Z.to_nat decpt) ds.

(** [str(v)] for a float [v]. *)
Definition str (f : float) : string :=
  match f with
  | S754_nan => "nan"
  | S754_infinity s => sign_str s ++ "inf"
  | S754_zero s => sign_str s ++ "0.0"
  | S754_finite s m e =>
      let '(ds, decpt) := shortest_digits m e in
      sign_str s ++ layout ds decpt
  end.

(** [str(n)], [f"{n}"] for an integer. *)
Definition int_text (n : Z) : string :=
  if Z.ltb n 0 then "-" ++ Z_digits (- n) else Z_digits n.

End PyFormat.

(** ** The pandas operations the program uses *)

Module Pandas.

(** One row of the force table; the fields are the columns ['x'],
    ['Shear force'] and ['Bending Moment'] of the workbook, each cell the
    number its spreadsheet cell stores (NaN for an empty cell).  A
    workbook that lacks one of the three columns, or holds text in them,
    is not a value of this type. *)
Record Row : Type := {
  x : float;
  Shear_force : float;
  Bending_Moment : float
}.

Definition Series : Type := list float.
(** Rows in sheet order; [read_excel] labels them 0, 1, 2, ... *)
Definition DataFrame : Type := list Row.

(** [df[name]] *)
Definition column (name : Row -> float) (df : DataFrame) : Series :=
  map name df.

(** nanops replaces missing values by the neutral element of the
    reduction before handing the array to numpy. *)
Definition fill_neg_inf (v : float) : float :=
  if Float64.is_nan v then Float64.neg_inf else v.
Definition fill_pos_inf (v : float) : float :=
  if Float64.is_nan v then Float64.pos_inf else v.

(** numpy's reductions scan the array once and keep the best cell met so
    far.  [better best v] says that [v] displaces [best]. *)
Section Reduction.
Variable better : float -> float -> bool.

(** [a.max()] / [a.min()] of a non-empty array. *)
Definition np_reduce (a : list float) : float :=
  match a with
  | [] => Float64.nan
  | v :: rest => fold_left (fun best w => if better best w then w else best) rest v
  end.

(** [best] was found at index [bi]; [i] is the index of the head of the
    cells still to be scanned.  Only a strictly better cell displaces
    [best], so the first occurrence of the extreme is the one kept. *)
Fixpoint np_arg_from (best : float) (bi i : nat) (a : list float) : nat :=
  match a with
  | [] => bi
  | v :: rest =>
      if better best v then np_arg_from v i (S i) rest
      else np_arg_from best bi (S i) rest
  end.

(** [a.argmax()] / [a.argmin()]: numpy refuses an empty sequence. *)
Definition np_arg (a : list float) : result nat :=
  match a with
  | [] => Err ValueError
  | v :: rest => Ok (np_arg_from v 0 1 rest)
  end.
End Reduction.

Definition greater (best v : float) : bool := Float64.ltb best v.
Definition smaller (best v : float) : bool := Float64.ltb v best.

(** [s.max()], [s.min()] with the default [skipna=True]: NaN when the
    series is empty or holds no value. *)
Definition max (s : Series) : float :=
  if forallb Float64.is_nan s then Float64.nan
  else np_reduce greater (map fill_neg_inf s).

Definition min (s : Series) : float :=
  if forallb Float64.is_nan s then Float64.nan
  else np_reduce smaller (map fill_pos_inf s).

(** [s.idxmax()], [s.idxmin()]: the label of the first row holding the
    extreme; an exception when there is no value to take it of. *)
Definition idxmax (s : Series) : result nat :=
  if forallb Float64.is_nan s then Err ValueError
  else np_arg greater (map fill_neg_inf s).

Definition idxmin (s : Series) : result nat :=
  if forallb Float64.is_nan s then Err ValueError
  else np_arg smaller (map fill_pos_inf s).

(** [s.abs()] *)
Definition abs (s : Series) : Series := map Float64.abs s.

(** [df.loc[label, name]] for a row label. *)
Definition loc (df : DataFrame) (label : nat) (name : Row -> float)
  : result float :=
  match nth_error df label with
  | Some row => Ok (name row)
  | None => Err KeyError
  end.

(** [s == v] *)
Definition eq_mask (s : Series) (v : float) : list bool :=
  map (fun w => Float64.eqb w v) s.

(** [df.loc[mask, name].values]: the cells of the rows the mask keeps. *)
Fixpoint loc_mask (df : DataFrame) (mask : list bool) (name : Row -> float)
  : list float :=
  match df, mask with
  | row :: df', b :: mask' =>
      if b then name row :: loc_mask df' mask' name
      else loc_mask df' mask' name
  | _, _ => []
  end.

(** [a[0]] *)
Definition first (a : list float) : result float :=
  match a with
  | v :: _ => Ok v
  | [] => Err IndexError
  end.

(** [v in s.values] *)
Definition contains (v : float) (a : list float) : bool :=
  existsb (fun w => Float64.eqb w v) a.

(** *** The dtype of a column

    [read_excel] reads a numeric cell that holds a whole number as a
    Python int and any other as a float; a column of ints becomes an
    int64 column, a column with at least one float or one empty cell a
    float64 column.  An int64 cell prints without a fractional part where
    no format is given, and int64 arithmetic wraps around.  (Whole
    numbers from 2^63 on do not fit int64; the model sends a column
    holding one to float64, and the properties of unformatted text leave
    such columns out, see [as_read].) *)
Inductive dtype : Type :=
| int64
| float64.

(** The integer a cell holds, when it holds a whole number. *)
Definition whole_value (v : float) : option Z :=
  match v with
  | S754_zero _ => Some 0
  | S754_finite s m e =>
      match e with
      | Zneg k =>
          if Z.eqb (Zpos m mod 2 ^ Zpos k) 0
          then Some (cond_Zopp s (Zpos m / 2 ^ Zpos k))
          else None
      | _ => Some (cond_Zopp s (Zpos m * 2 ^ e))
      end
  | _ => None
  end.

Definition fits_int64 (z : Z) : bool :=
  Z.leb (- 2 ^ 63) z && Z.ltb z (2 ^ 63).

Definition int64_cell (v : float) : bool :=
  match whole_value v with
  | Some z => fits_int64 z
  | None => false
  end.

(** [s.dtype]; the columns of a sheet without rows hold no number. *)
Definition dtype_of (s : Series) : dtype :=
  match s with
  | [] => float64
  | _ => if forallb int64_cell s then int64 else float64
  end.

(** The dtype of the rows that [df.iterrows()] yields: a row is a Series
    of its three cells, so they are ints only when the three columns are
    int64, and are all converted to floats otherwise. *)
Definition row_dtype (df : DataFrame) : dtype :=
  match dtype_of (column x df), dtype_of (column Shear_force df),
        dtype_of (column Bending_Moment df) with
  | int64, int64, int64 => int64
  | _, _, _ => float64
  end.

(** The int that an int64 cell is. *)
Definition as_int (v : float) : Z :=
  match whole_value v with
  | Some z => z
  | None => 0
  end.

(** [str(v)], [f"{v}"] for a cell of a column or row of dtype [dt]. *)
Definition cell_str (dt : dtype) (v : float) : string :=
  match dt with
  | int64 => PyFormat.int_text (as_int v)
  | float64 => PyFormat.str v
  end.

(** int64 results wrap around. *)
Definition wrap64 (z : Z) : Z := (z + 2 ^ 63) mod 2 ^ 64 - 2 ^ 63.

(** [f"{v + k}"] and [f"{v - k}"] for a cell [v] of a column of dtype
    [dt] and an integer literal [k]. *)
Definition plus_str (dt : dtype) (v : float) (k : Z) : string :=
  match dt with
  | int64 => PyFormat.int_text (wrap64 (as_int v + k))
  | float64 => PyFormat.str (Float64.add v (Float64.of_Z k))
  end.

Definition minus_str (dt : dtype) (v : float) (k : Z) : string :=
  match dt with
  | int64 => PyFormat.int_text (wrap64 (as_int v - k))
  | float64 => PyFormat.str (Float64.sub v (Float64.of_Z k))
  end.

End Pandas.

(** ** The wall clock *)

Module DateTime.

Record datetime : Type := {
  year : Z;
  month : nat;     (* 1 .. 12 *)
  day : Z;         (* 1 .. 31 *)
  hour : Z;
  minute : Z;
  second : Z;
  microsecond : Z
}.

Definition month_names : list string :=
  ["January"; "February"; "March"; "April"; "May"; "June"; "July";
   "August"; "September"; "October"; "November"; "December"].

(** [%B] *)
Definition full_month (d : datetime) : string :=
  nth (month d - 1) month_names "".

(** [%d] *)
Definition padded_day (d : datetime) : string :=
  PyFormat.padded_digits 2 (day d).

(** [%Y]; a system clock shows four digits. *)
Definition padded_year (d : datetime) : string :=
  if Z.ltb (year d) 1000 then PyFormat.padded_digits 4 (year d)
  else PyFormat.Z_digits (year d).

(** [d.strftime("%B %d, %Y")] *)
Definition strftime_B_d_Y (d : datetime) : string :=
  full_month d ++ " " ++ padded_day d ++ ", " ++ padded_year d.

End DateTime.

(** ** The raw string literals of the section builders

    Each constant is one raw triple-quoted literal of [code.py], byte for
    byte,
    numbered in the order in which its builder concatenates them. *)

Module Tex.

Definition preamble_0 : string := "
\documentclass[12pt, a4paper]{report}

% ============================================
% PACKAGES
% ============================================
\usepackage[utf8]{inputenc}
\usepackage[T1]{fontenc}
\usepackage{geometry}
\usepackage{graphicx}
\usepackage{booktabs}
\usepackage{array}
\usepackage{float}
\usepackage{xcolor}
\usepackage{colortbl}
\usepackage{tikz}
\usepackage{pgfplots}
\usepackage{hyperref}
\usepackage{fancyhdr}
\usepackage{titlesec}
\usepackage{tocloft}

% ============================================
% PAGE SETUP
% ============================================
\geometry{
    left=25mm,
    right=25mm,
    top=25mm,
    bottom=25mm
}

% ============================================
% PGFPLOTS CONFIGURATION
% ============================================
\pgfplotsset{compat=1.18}

% ============================================
% COLOR DEFINITIONS
% ============================================
\definecolor{shearpositive}{RGB}{70, 130, 180}    % Steel Blue
\definecolor{shearnegative}{RGB}{220, 20, 60}     % Crimson Red
\definecolor{momentpositive}{RGB}{34, 139, 34}    % Forest Green
\definecolor{momentnegative}{RGB}{255, 140, 0}    % Dark Orange
\definecolor{titleblue}{RGB}{0, 51, 102}          % Dark Blue

% ============================================
% HYPERREF SETUP
% ============================================
\hypersetup{
    colorlinks=true,
    linkcolor=titleblue,
    filecolor=magenta,      
    urlcolor=cyan,
    pdftitle={Beam Analysis Report},
    pdfauthor={FOSSEE Project},
}

% ============================================
% HEADER AND FOOTER
% ============================================
\pagestyle{fancy}
\fancyhf{}
\fancyhead[L]{\small Beam Analysis Report}
\fancyhead[R]{\small \leftmark}
\fancyfoot[C]{\thepage}
\renewcommand{\headrulewidth}{0.4pt}
\renewcommand{\footrulewidth}{0.4pt}

% ============================================
% TITLE FORMATTING
% ============================================
\titleformat{\chapter}[display]
  {\normalfont\huge\bfseries\color{titleblue}}
  {\chaptertitlename\ \thechapter}{20pt}{\Huge}

\begin{document}
".

Definition title_page_0 : string := "
% ============================================
% TITLE PAGE
% ============================================
\begin{titlepage}
    \centering
    
    \vspace*{2cm}
    
    % Title
    {\Huge\bfseries\color{titleblue} Structural Analysis Report \par}
    
    \vspace{1cm}
    
    {\LARGE\bfseries Simply Supported Beam Analysis \par}
    
    \vspace{2cm}
    
    % Decorative line
    \noindent\rule{\textwidth}{2pt}
    
    \vspace{2cm}
    
    % Project Information
    {\Large\textbf{Project:} FOSSEE Beam Analysis \par}
    
    \vspace{0.5cm}
    
    {\Large\textbf{Document Type:} Engineering Analysis Report \par}
    
    \vspace{0.5cm}
    
    {\Large\textbf{Analysis Method:} Shear Force \& Bending Moment Analysis \par}
    
    \vspace{3cm}
    
    % Date
    {\large\textbf{Date:} ".

Definition title_page_1 : string := " \par}
    
    \vfill
    
    % Footer line
    \noindent\rule{\textwidth}{1pt}
    
    \vspace{0.5cm}
    
    {\small Generated using Python and \LaTeX{} \par}
    
\end{titlepage}
".

Definition toc_0 : string := "
% ============================================
% TABLE OF CONTENTS
% ============================================
\tableofcontents
\thispagestyle{empty}
\newpage
".

Definition introduction_0 : string := "
% ============================================
% INTRODUCTION
% ============================================
\chapter{Introduction}

\section{Overview}

This report presents a comprehensive structural analysis of a simply supported beam 
subjected to a uniformly distributed load. The analysis includes the calculation and 
visualization of internal forces, specifically the Shear Force Diagram (SFD) and 
Bending Moment Diagram (BMD).

\section{Simply Supported Beam}

A simply supported beam is a fundamental structural element that rests on two 
supports --- a pinned support at one end and a roller support at the other. This 
configuration allows the beam to:

\begin{itemize}
    \item Resist vertical loads through reaction forces at the supports
    \item Freely expand or contract due to thermal effects (roller support)
    \item Rotate freely at both support points
\end{itemize}

\subsection{Beam Configuration}

The beam under analysis has the following configuration:

\begin{figure}[H]
    \centering
    \includegraphics[width=0.85\textwidth]{".

Definition introduction_1 : string := "}
    \caption{Simply Supported Beam with Pinned and Roller Supports}
    \label{fig:beam_diagram}
\end{figure}

\textbf{Beam Parameters:}
\begin{itemize}
    \item \textbf{Total Length:} ".

Definition introduction_2 : string := " meters
    \item \textbf{Left Support:} Pinned support (restricts horizontal and vertical displacement)
    \item \textbf{Right Support:} Roller support (restricts only vertical displacement)
    \item \textbf{Loading:} Uniformly distributed load
\end{itemize}

\section{Analysis Objectives}

The objectives of this structural analysis are:

\begin{enumerate}
    \item Calculate shear forces at critical points along the beam
    \item Calculate bending moments at critical points along the beam
    \item Generate Shear Force Diagram (SFD)
    \item Generate Bending Moment Diagram (BMD)
    \item Identify maximum shear force and bending moment locations
\end{enumerate}

\newpage
".

Definition data_table_0 : string := "
% ============================================
% INPUT DATA
% ============================================
\chapter{Input Data}

\section{Force and Moment Data}

The following table presents the calculated values of shear force and bending 
moment at various positions along the beam. These values were obtained from 
structural analysis calculations.

\begin{table}[H]
    \centering
    \caption{Shear Force and Bending Moment Values Along the Beam}
    \label{tab:force_data}
    \vspace{0.5cm}
    \begin{tabular}{|c|c|c|}
        \hline
        \rowcolor{titleblue!20}
        \textbf{Position (x)} & \textbf{Shear Force (V)} & \textbf{Bending Moment (M)} \\
        \textbf{[meters]} & \textbf{[kN]} & \textbf{[kN$\cdot$m]} \\
        \hline
".

Definition data_table_1 : string := "    \end{tabular}
\end{table}

\section{Data Interpretation}

From the table above, we can observe:

\begin{itemize}
    \item \textbf{Maximum Positive Shear Force:} ".

Definition data_table_2 : string := " kN (at x = ".

Definition data_table_3 : string := " m)
    \item \textbf{Maximum Negative Shear Force:} ".

Definition data_table_4 : string := " kN (at x = ".

Definition data_table_5 : string := " m)
    \item \textbf{Maximum Bending Moment:} ".

Definition data_table_6 : string := " kN$\cdot$m (at x = ".

Definition data_table_7 : string := " m)
    \item \textbf{Zero Shear Location:} x = ".

Definition data_table_8 : string := " m (point of maximum moment)
\end{itemize}

\newpage
".

Definition sfd_0 : string := "
% ============================================
% SHEAR FORCE DIAGRAM
% ============================================
\chapter{Analysis Results}

\section{Shear Force Diagram (SFD)}

The Shear Force Diagram shows the variation of internal shear force along the 
length of the beam. Positive shear forces are shown in \textcolor{shearpositive}{\textbf{blue}} 
and negative shear forces are shown in \textcolor{shearnegative}{\textbf{red}}.

\begin{figure}[H]
    \centering
    \begin{tikzpicture}
        \begin{axis}[
            width=0.95\textwidth,
            height=8cm,
            xlabel={Position along beam (m)},
            ylabel={Shear Force (kN)},
            title={\textbf{Shear Force Diagram}},
            xmin=-0.5,
            xmax=".

Definition sfd_1 : string := ",
            ymin=".

Definition sfd_2 : string := ",
            ymax=".

Definition sfd_3 : string := ",
            xtick={".

Definition sfd_4 : string := "},
            grid=both,
            grid style={line width=0.2pt, draw=gray!30},
            major grid style={line width=0.4pt, draw=gray!50},
            axis lines=middle,
            axis line style={->, thick},
            legend style={
                at={(0.98,0.98)},
                anchor=north east,
                draw=black,
                fill=white,
                font=\small
            },
            every axis plot/.append style={thick},
            ybar,
            bar width=8pt,
            enlarge x limits=0.05,
        ]
        
        % Positive Shear Force (Blue)
        \addplot[
            fill=shearpositive,
            draw=shearpositive!80!black,
        ] coordinates {
".

Definition sfd_5 : string := "        };
        \addlegendentry{Positive Shear}
        
        % Negative Shear Force (Red)
        \addplot[
            fill=shearnegative,
            draw=shearnegative!80!black,
        ] coordinates {
".

Definition sfd_6 : string := "        };
        \addlegendentry{Negative Shear}
        
        % Zero line
        \draw[black, thick, dashed] (axis cs:-0.5,0) -- (axis cs:".

Definition sfd_7 : string := ",0);
        
        \end{axis}
    \end{tikzpicture}
    \caption{Shear Force Diagram showing the distribution of shear force along the beam}
    \label{fig:sfd}
\end{figure}

\subsection{SFD Observations}

\begin{itemize}
    \item The shear force is maximum positive at the left support
    \item The shear force decreases linearly under uniformly distributed load
    \item The shear force crosses zero at the midpoint of the beam
    \item The shear force is maximum negative at the right support
    \item The slope of the SFD equals the intensity of the distributed load
\end{itemize}

\newpage
".

Definition bmd_0 : string := "
\section{Bending Moment Diagram (BMD)}

The Bending Moment Diagram shows the variation of internal bending moment along 
the length of the beam. Positive (sagging) moments are shown in 
\textcolor{momentpositive}{\textbf{green}}.

\begin{figure}[H]
    \centering
    \begin{tikzpicture}
        \begin{axis}[
            width=0.95\textwidth,
            height=8cm,
            xlabel={Position along beam (m)},
            ylabel={Bending Moment (kN$\cdot$m)},
            title={\textbf{Bending Moment Diagram}},
            xmin=-0.5,
            xmax=".

Definition bmd_1 : string := ",
            ymin=-10,
            ymax=".

Definition bmd_2 : string := ",
            xtick={".

Definition bmd_3 : string := "},
            grid=both,
            grid style={line width=0.2pt, draw=gray!30},
            major grid style={line width=0.4pt, draw=gray!50},
            axis lines=middle,
            axis line style={->, thick},
            legend style={
                at={(0.98,0.98)},
                anchor=north east,
                draw=black,
                fill=white,
                font=\small
            },
            every axis plot/.append style={thick},
            ybar,
            bar width=8pt,
            enlarge x limits=0.05,
        ]
        
        % Bending Moment (Green)
        \addplot[
            fill=momentpositive,
            draw=momentpositive!80!black,
        ] coordinates {
".

Definition bmd_4 : string := "        };
        \addlegendentry{Bending Moment (Sagging)}
        
        % Zero line
        \draw[black, thick, dashed] (axis cs:-0.5,0) -- (axis cs:".

Definition bmd_5 : string := ",0);
        
        \end{axis}
    \end{tikzpicture}
    \caption{Bending Moment Diagram showing the distribution of bending moment along the beam}
    \label{fig:bmd}
\end{figure}

\subsection{BMD Observations}

\begin{itemize}
    \item The bending moment is zero at both supports (simply supported conditions)
    \item The bending moment is maximum at the center of the beam (x = ".

Definition bmd_6 : string := " m)
    \item Maximum bending moment value: ".

Definition bmd_7 : string := " kN$\cdot$m
    \item The BMD follows a parabolic curve for uniformly distributed loads
    \item The slope of the BMD at any point equals the shear force at that point
\end{itemize}

\newpage
".

Definition conclusion_0 : string := "
% ============================================
% CONCLUSION
% ============================================
\chapter{Conclusion}

\section{Summary of Results}

This structural analysis report has presented a comprehensive analysis of a simply 
supported beam with the following key findings:

\begin{table}[H]
    \centering
    \caption{Summary of Critical Values}
    \vspace{0.5cm}
    \begin{tabular}{|l|c|c|}
        \hline
        \rowcolor{titleblue!20}
        \textbf{Parameter} & \textbf{Value} & \textbf{Location} \\
        \hline
        Maximum Positive Shear & ".

Definition conclusion_1 : string := " kN & x = 0.0 m \\
        \hline
        Maximum Negative Shear & ".

Definition conclusion_2 : string := " kN & x = ".

Definition conclusion_3 : string := " m \\
        \hline
        Maximum Bending Moment & ".

Definition conclusion_4 : string := " kN$\cdot$m & x = ".

Definition conclusion_5 : string := " m \\
        \hline
    \end{tabular}
\end{table}

\section{Design Recommendations}

Based on the analysis results, the following recommendations are made for the 
design of this simply supported beam:

\begin{enumerate}
    \item \textbf{Shear Reinforcement:} Provide adequate shear reinforcement near 
          the supports where shear forces are maximum.
    
    \item \textbf{Flexural Reinforcement:} Provide maximum flexural reinforcement 
          at the midspan where the bending moment is maximum.
    
    \item \textbf{Deflection Check:} Verify that the beam deflection under service 
          loads is within acceptable limits.
    
    \item \textbf{Support Design:} Design the supports to safely transfer the 
          reaction forces to the foundation.
\end{enumerate}

\section{Report Generation}

This report was automatically generated using:
\begin{itemize}
    \item Python for data processing and LaTeX generation
    \item TikZ/PGFPlots for vector graphics diagrams
    \item \LaTeX{} for professional document formatting
\end{itemize}

\end{document}
".

End Tex.

(** ** The environment of a run *)

Import Pandas DateTime PyFormat.

(** What the program reads from outside its arguments: the system clock
    ([datetime.now()]) and the workbook behind a path ([pd.read_excel]).
    The workbooks are those that hold the three numeric columns; one
    without them makes the program raise KeyError at the first lookup of
    the missing column, which is outside this model. *)
Record World : Type := {
  now : datetime;
  read_excel : string -> result DataFrame
}.

(** ** Small string helpers *)

Definition newline : string := String (ascii_of_nat 10) EmptyString.
Definition backslash : ascii := ascii_of_nat 92.

(** [s.replace(old, new)] for single characters. *)
Fixpoint replace_char (old new : ascii) (s : string) : string :=
  match s with
  | EmptyString => EmptyString
  | String c rest =>
      String (if Ascii.eqb c old then new else c) (replace_char old new rest)
  end.

(** [sep.join(items)] *)
Fixpoint join (sep : string) (items : list string) : string :=
  match items with
  | [] => EmptyString
  | [s] => s
  | s :: rest => s ++ sep ++ join sep rest
  end.

(** ** class BeamReportGenerator *)

Record BeamReportGenerator : Type := {
  excel_path : string;
  beam_image_path : string;
  output_name : string;
  data : option DataFrame;      (* None until [load_data] has run *)
  beam_length : float
}.

Definition __init__ (excel_path beam_image_path output_name : string)
  : BeamReportGenerator :=
  {| excel_path := excel_path;
     beam_image_path := beam_image_path;
     output_name := output_name;
     data := None;
     beam_length := Float64.zero |}.

(** [self.data[...]]: subscripting None is a TypeError. *)
Definition the_data (self : BeamReportGenerator) : result DataFrame :=
  match data self with
  | Some df => Ok df
  | None => Err TypeError
  end.

(** [self.data.iterrows()]: None has no such method. *)
Definition iterrows (self : BeamReportGenerator) : result DataFrame :=
  match data self with
  | Some df => Ok df
  | None => Err AttributeError
  end.

Definition load_data (w : World) (self : BeamReportGenerator)
  : result BeamReportGenerator :=
  df <- read_excel w (excel_path self) ;;
  (* Calculate beam length from the maximum x value *)
  Ok {| excel_path := excel_path self;
        beam_image_path := beam_image_path self;
        output_name := output_name self;
        data := Some df;
        beam_length := Pandas.max (column x df) |}.

Definition _create_preamble (self : BeamReportGenerator) : string :=
  Tex.preamble_0.

Definition _create_title_page (w : World) (self : BeamReportGenerator)
  : string :=
  let current_date := strftime_B_d_Y (now w) in
  Tex.title_page_0 ++ current_date ++ Tex.title_page_1.

Definition _create_toc (self : BeamReportGenerator) : string :=
  Tex.toc_0.

Definition _create_introduction (self : BeamReportGenerator) : string :=
  (* Convert Windows path to forward slashes for LaTeX *)
  let image_path := replace_char backslash "/" (beam_image_path self) in
  Tex.introduction_0 ++ image_path ++ Tex.introduction_1
    ++ fmt1 (beam_length self) ++ Tex.introduction_2.

(** The two fragments that one pass of the loop over the rows appends:
    the formatted row and the rule under it. *)
Definition table_line (row : Row) : string :=
  "        " ++ fmt1 (x row) ++ " & " ++ fmt2 (Shear_force row) ++ " & "
    ++ fmt2 (Bending_Moment row) ++ " \\" ++ newline.

Definition table_rule : string := "        \hline" ++ newline.

(** [table_section] when the loop over [self.data.iterrows()] ends. *)
Definition table_rows (df : DataFrame) : string :=
  fold_left (fun table_section row =>
               let table_section := table_section ++ table_line row in
               table_section ++ table_rule)
            df Tex.data_table_0.

(** The conditional inside the last f-string of the data interpretation:
    [df.loc[df['Shear force'] == 0, 'x'].values[0]
       if 0 in df['Shear force'].values else 'N/A'], rendered. *)
Definition zero_shear_location (df : DataFrame) : result string :=
  if contains (Float64.of_Z 0) (column Shear_force df) then
    v <- first (loc_mask df (eq_mask (column Shear_force df) (Float64.of_Z 0)) x) ;;
    Ok (cell_str (dtype_of (column x df)) v)
  else Ok "N/A".

Definition _create_data_table (self : BeamReportGenerator) : result string :=
  df <- iterrows self ;;
  (* Add data rows from the DataFrame *)
  let table_section := table_rows df in
  (* Close the table *)
  let max_shear := Pandas.max (column Shear_force df) in
  i_max_shear <- idxmax (column Shear_force df) ;;
  x_max_shear <- loc df i_max_shear x ;;
  let min_shear := Pandas.min (column Shear_force df) in
  i_min_shear <- idxmin (column Shear_force df) ;;
  x_min_shear <- loc df i_min_shear x ;;
  let max_moment := Pandas.max (column Bending_Moment df) in
  i_max_moment <- idxmax (column Bending_Moment df) ;;
  x_max_moment <- loc df i_max_moment x ;;
  zero_shear <- zero_shear_location df ;;
  Ok (table_section ++
      (Tex.data_table_1 ++ fmt2 max_shear ++ Tex.data_table_2
       ++ fmt1 x_max_shear ++ Tex.data_table_3 ++ fmt2 min_shear
       ++ Tex.data_table_4 ++ fmt1 x_min_shear ++ Tex.data_table_5
       ++ fmt2 max_moment ++ Tex.data_table_6 ++ fmt1 x_max_moment
       ++ Tex.data_table_7 ++ zero_shear ++ Tex.data_table_8)).

(** A point of a chart series as the program prints it: the ordinate is
    either a cell of the row or the integer literal [0].  [dt] is the
    dtype of the rows that [iterrows] yields. *)
Definition coord_cell (dt : dtype) (x_val v : float) : string :=
  "            (" ++ cell_str dt x_val ++ ", " ++ cell_str dt v ++ ")"
    ++ newline.
Definition coord_zero (dt : dtype) (x_val : float) : string :=
  "            (" ++ cell_str dt x_val ++ ", 0)" ++ newline.

(** The loop of [_create_sfd_diagram]; the state is
    [(positive_coords, negative_coords)]. *)
Definition sfd_step (dt : dtype) (acc : string * string) (row : Row)
  : string * string :=
  let '(positive_coords, negative_coords) := acc in
  let x_val := x row in
  let shear := Shear_force row in
  if Float64.geb shear (Float64.of_Z 0) then
    (positive_coords ++ coord_cell dt x_val shear,
     negative_coords ++ coord_zero dt x_val)
  else
    (positive_coords ++ coord_zero dt x_val,
     negative_coords ++ coord_cell dt x_val shear).

Definition sfd_coords (df : DataFrame) : string * string :=
  fold_left (sfd_step (row_dtype df)) df (EmptyString, EmptyString).

(** [",".join([str(x) for x in self.data['x']])] *)
Definition xtick (df : DataFrame) : string :=
  join "," (map (cell_str (dtype_of (column x df))) (column x df)).

Definition _create_sfd_diagram (self : BeamReportGenerator) : result string :=
  df <- iterrows self ;;
  (* Prepare data for positive and negative bars *)
  let '(positive_coords, negative_coords) := sfd_coords df in
  Ok (Tex.sfd_0 ++ str (Float64.add (beam_length self) Float64.half)
      ++ Tex.sfd_1
      ++ minus_str (dtype_of (column Shear_force df))
                   (Pandas.min (column Shear_force df)) 10
      ++ Tex.sfd_2
      ++ plus_str (dtype_of (column Shear_force df))
                  (Pandas.max (column Shear_force df)) 10
      ++ Tex.sfd_3 ++ xtick df ++ Tex.sfd_4 ++ positive_coords ++ Tex.sfd_5
      ++ negative_coords ++ Tex.sfd_6
      ++ str (Float64.add (beam_length self) Float64.half) ++ Tex.sfd_7).

Definition bmd_coords (df : DataFrame) : string :=
  fold_left (fun coords row =>
               coords ++ coord_cell (row_dtype df) (x row)
                                    (Bending_Moment row))
            df EmptyString.

Definition _create_bmd_diagram (self : BeamReportGenerator) : result string :=
  df <- iterrows self ;;
  (* Prepare coordinates for the bar chart *)
  let coords := bmd_coords df in
  Ok (Tex.bmd_0 ++ str (Float64.add (beam_length self) Float64.half)
      ++ Tex.bmd_1
      ++ plus_str (dtype_of (column Bending_Moment df))
                  (Pandas.max (column Bending_Moment df)) 20
      ++ Tex.bmd_2 ++ xtick df ++ Tex.bmd_3 ++ coords ++ Tex.bmd_4
      ++ str (Float64.add (beam_length self) Float64.half) ++ Tex.bmd_5
      ++ fmt1 (Float64.div (beam_length self) (Float64.of_Z 2)) ++ Tex.bmd_6
      ++ fmt2 (Pandas.max (column Bending_Moment df)) ++ Tex.bmd_7).

Definition _create_conclusion (self : BeamReportGenerator) : result string :=
  df <- the_data self ;;
  let max_shear := Pandas.max (Pandas.abs (column Shear_force df)) in
  let max_moment := Pandas.max (column Bending_Moment df) in
  Ok (Tex.conclusion_0 ++ fmt2 (Pandas.max (column Shear_force df))
      ++ Tex.conclusion_1 ++ fmt2 (Pandas.min (column Shear_force df))
      ++ Tex.conclusion_2 ++ fmt1 (beam_length self) ++ Tex.conclusion_3
      ++ fmt2 max_moment ++ Tex.conclusion_4
      ++ fmt1 (Float64.div (beam_length self) (Float64.of_Z 2))
      ++ Tex.conclusion_5).

(** Steps 1 and 2 of [generate_report]: load the data and build
    [latex_content], the text later written to the [.tex] file.  Writing
    the file, running pdflatex and removing its by-products are left out. *)
Definition generate_report (w : World) (self : BeamReportGenerator)
  : result string :=
  self <- load_data w self ;;
  let latex_content := EmptyString in
  let latex_content := latex_content ++ _create_preamble self in
  let latex_content := latex_content ++ _create_title_page w self in
  let latex_content := latex_content ++ _create_toc self in
  let latex_content := latex_content ++ _create_introduction self in
  s <- _create_data_table self ;;
  let latex_content := latex_content ++ s in
  s <- _create_sfd_diagram self ;;
  let latex_content := latex_content ++ s in
  s <- _create_bmd_diagram self ;;
  let latex_content := latex_content ++ s in
  s <- _create_conclusion self ;;
  let latex_content := latex_content ++ s in
  Ok latex_content.

(** ** Vocabulary of the properties *)

(** Concatenation of a list of text fragments. *)
Definition flat (parts : list string) : string :=
  fold_right append EmptyString parts.

(** [occurs needle hay]: [needle] is a contiguous part of [hay]. *)
Fixpoint occurs (needle hay : string) : bool :=
  prefix needle hay ||
  match hay with
  | EmptyString => false
  | String _ rest => occurs needle rest
  end.

(** A column without missing cells. *)
Definition no_nan (s : Series) : Prop :=
  Forall (fun v => Float64.is_nan v = false) s.

(** A row of real numbers. *)
Definition finite_row (row : Row) : Prop :=
  Float64.is_finite (x row) = true /\
  Float64.is_finite (Shear_force row) = true /\
  Float64.is_finite (Bending_Moment row) = true.

(** [v] is the greatest cell of [s]. *)
Definition is_maximum (v : float) (s : Series) : Prop :=
  In v s /\ forall w, In w s -> Float64.leb w v = true.

(** [v] sits at index [i] of [s], no cell of [s] is beyond it in the order
    [le], and every cell before index [i] is strictly short of it. *)
Definition first_extreme (le lt : float -> float -> bool)
  (s : Series) (i : nat) (v : float) : Prop :=
  nth_error s i = Some v /\
  (forall w, In w s -> le w v = true) /\
  (forall j w, (j < i)%nat -> nth_error s j = Some w -> lt w v = true).

Definition first_max : Series -> nat -> float -> Prop :=
  first_extreme Float64.leb Float64.ltb.
Definition first_min : Series -> nat -> float -> Prop :=
  first_extreme (fun a b => Float64.leb b a) (fun a b => Float64.ltb b a).

(** Row [i] of the table is [row], the first row whose cell in column
    [name] is the greatest / the least of that column. *)
Definition first_max_row (name : Row -> float) (df : DataFrame)
  (i : nat) (row : Row) : Prop :=
  nth_error df i = Some row /\ first_max (column name df) i (name row).
Definition first_min_row (name : Row -> float) (df : DataFrame)
  (i : nat) (row : Row) : Prop :=
  nth_error df i = Some row /\ first_min (column name df) i (name row).

(** Row [i] is [row], the first row whose shear is exactly 0. *)
Definition first_zero_shear_row (df : DataFrame) (i : nat) (row : Row) : Prop :=
  nth_error df i = Some row /\
  Float64.eqb (Shear_force row) (Float64.of_Z 0) = true /\
  (forall j r, (j < i)%nat -> nth_error df j = Some r ->
               Float64.eqb (Shear_force r) (Float64.of_Z 0) = false).

(** The text that closes the data table chapter, as a function of the
    seven rendered values the program splices into it. *)
Definition interpretation
  (max_shear x_max_shear min_shear x_min_shear max_moment x_max_moment
     zero_shear : string) : string :=
  Tex.data_table_1 ++ max_shear ++ Tex.data_table_2 ++ x_max_shear
    ++ Tex.data_table_3 ++ min_shear ++ Tex.data_table_4 ++ x_min_shear
    ++ Tex.data_table_5 ++ max_moment ++ Tex.data_table_6 ++ x_max_moment
    ++ Tex.data_table_7 ++ zero_shear ++ Tex.data_table_8.

(** Decimal notation with exactly [n] digits after the point. *)
Definition is_digit (c : ascii) : bool :=
  (48 <=? nat_of_ascii c)%nat && (nat_of_ascii c <=? 57)%nat.

Fixpoint all_digits (s : string) : bool :=
  match s with
  | EmptyString => true
  | String c rest => is_digit c && all_digits rest
  end.

Definition has_decimals (n : nat) (s : string) : Prop :=
  exists sign whole frac,
    s = sign ++ whole ++ "." ++ frac /\
    (sign = EmptyString \/ sign = "-") /\
    whole <> EmptyString /\
    all_digits whole = true /\
    all_digits frac = true /\
    String.length frac = n.

(** *** The shear chart series, in the words of the specification

    Two parallel series over the positions of the table: one holds
    (position, shear) where shear >= 0 and (position, 0) elsewhere, the
    other holds (position, shear) where shear < 0 and (position, 0)
    elsewhere. *)
Inductive ordinate : Type :=
| Cell (v : float)
| Zero.

Definition spec_positive_series (df : DataFrame) : list (float * ordinate) :=
  map (fun row =>
         (x row,
          if Float64.leb (Float64.of_Z 0) (Shear_force row)
          then Cell (Shear_force row) else Zero)) df.

Definition spec_negative_series (df : DataFrame) : list (float * ordinate) :=
  map (fun row =>
         (x row,
          if Float64.ltb (Shear_force row) (Float64.of_Z 0)
          then Cell (Shear_force row) else Zero)) df.

(** The line of a point in the text of a series: twelve spaces, then
    the position and the ordinate in parentheses, separated by a comma
    and a space.  A cell is printed without a format, so by its dtype
    [dt]: an integer as such, any other number by its shortest decimal. *)
Definition point_text (dt : dtype) (p : float * ordinate) : string :=
  "            (" ++ cell_str dt (fst p) ++ ", "
    ++ match snd p with
       | Cell v => cell_str dt v
       | Zero => "0"
       end
    ++ ")" ++ newline.

Definition series_text (dt : dtype) (s : list (float * ordinate)) : string :=
  flat (map (point_text dt) s).

(** [t] ends with [s]. *)
Definition ends_with (s t : string) : Prop :=
  exists before, t = before ++ s.

(** A cell as [read_excel] delivers it into an int64 or float64 column.
    A whole number is read as an int: it is never the negative zero, and
    it lies within the range of int64 (beyond it pandas types a column of
    whole numbers uint64 or object, which [dtype_of] does not cover). *)
Definition read_cell (v : float) : bool :=
  match v with
  | S754_zero true => false
  | _ =>
      match whole_value v with
      | Some z => fits_int64 z
      | None => true
      end
  end.

Definition as_read (s : Series) : Prop :=
  forallb read_cell s = true.

Definition table_as_read (df : DataFrame) : Prop :=
  as_read (column x df) /\
  as_read (column Shear_force df) /\
  as_read (column Bending_Moment df).

(** [_create_data_table] returns the rows of [df] followed by the
    interpretation in which the maximum positive shear is the shear of
    [r1], printed with the position of [r1], the maximum negative shear
    is the shear of [r2] with the position of [r2], the maximum moment is
    the moment of [r3] with the position of [r3], and the zero-shear
    location is the text [zero_shear]. *)
Definition data_table_from (self : BeamReportGenerator) (df : DataFrame)
  (r1 r2 r3 : Row) (zero_shear : string) : Prop :=
  _create_data_table self
  = Ok (table_rows df ++
        interpretation (fmt2 (Shear_force r1)) (fmt1 (x r1))
                       (fmt2 (Shear_force r2)) (fmt1 (x r2))
                       (fmt2 (Bending_Moment r3)) (fmt1 (x r3))
                       zero_shear).

(** A line of the data table, and the rule under it, from the three
    rendered cells. *)
Definition formatted_row (position shear moment : string) : string :=
  "        " ++ position ++ " & " ++ shear ++ " & " ++ moment ++ " \\"
    ++ newline ++ "        \hline" ++ newline.

(** Some row of [df] holds [v] in column [name] and has its position
    printed as [position]. *)
Definition holds_at (name : Row -> float) (v : float) (position : string)
  (df : DataFrame) : bool :=
  existsb (fun r => Float64.eqb (name r) v
                    && String.eqb (fmt1 (x r)) position) df.

(** ** Sample inputs *)

(** The binary64 number that the decimal literal [n / 10^k] reads as. *)
Definition dec (n : Z) (k : nat) : float :=
  Float64.div (Float64.of_Z n) (Float64.of_Z (10 ^ Z.of_nat k)).

Definition row (x_val shear moment : float) : Row :=
  {| x := x_val; Shear_force := shear; Bending_Moment := moment |}.

(** 25 kN/m over a 4 m span. *)
Definition uniform_load : DataFrame :=
  [ row (dec 0 0) (dec 50 0) (dec 0 0);
    row (dec 1 0) (dec 25 0) (dec 375 1);
    row (dec 2 0) (dec 0 0) (dec 50 0);
    row (dec 3 0) (dec (-25) 0) (dec 375 1);
    row (dec 4 0) (dec (-50) 0) (dec 0 0) ].

(** The end-to-end scenario of the specification: no row has shear 0. *)
Definition constant_shear : DataFrame :=
  [ row (dec 0 0) (dec 50 0) (dec 0 0);
    row (dec 2 0) (dec 50 0) (dec 100 0);
    row (dec 4 0) (dec 50 0) (dec 0 0) ].

(** A table whose extremes are away from the supports and the midspan. *)
Definition off_centre : DataFrame :=
  [ row (dec 0 0) (dec 10 0) (dec 0 0);
    row (dec 1 0) (dec 30 0) (dec 30 0);
    row (dec 2 0) (dec (-10) 0) (dec 20 0);
    row (dec 3 0) (dec (-10) 0) (dec 10 0);
    row (dec 4 0) (dec (-5) 0) (dec 0 0) ].

(** The shear vanishes at x = 0.75. *)
Definition zero_at_075 : DataFrame :=
  [ row (dec 0 0) (dec 50 0) (dec 0 0);
    row (dec 75 2) (dec 0 0) (dec 30 0);
    row (dec 15 1) (dec (-50) 0) (dec 0 0) ].

(** The shear vanishes on two rows. *)
Definition two_zeros : DataFrame :=
  [ row (dec 0 0) (dec 20 0) (dec 0 0);
    row (dec 1 0) (dec 0 0) (dec 20 0);
    row (dec 2 0) (dec 0 0) (dec 20 0);
    row (dec 3 0) (dec (-20) 0) (dec 0 0) ].

Definition at_time (d h : Z) : datetime :=
  {| year := 2026; month := 11; day := d; hour := h; minute := 30;
     second := 0; microsecond := 0 |}.

(** A world where the clock shows [t] and every workbook holds [df]. *)
Definition world (t : datetime) (df : DataFrame) : World :=
  {| now := t; read_excel := fun _ => Ok df |}.

Definition generator : BeamReportGenerator :=
  __init__ "Force Table.xlsx" "simply_supported_beam.png"
           "Beam_Analysis_Report".

(** The generator once [load_data] has read [df]. *)
Definition loaded (df : DataFrame) : BeamReportGenerator :=
  {| excel_path := excel_path generator;
     beam_image_path := beam_image_path generator;
     output_name := output_name generator;
     data := Some df;
     beam_length := Pandas.max (column x df) |}.

(** ** The whole run: console, files and the external typesetter

    [generate_report], [_cleanup_aux_files] and [main] print to the
    console, write the [.tex] file, start pdflatex through [os.system] and
    delete its by-products.  The state they thread is [Sys]; what the
    machine decides (how paths are joined, what a shell command does to
    the files, which files cannot be written or removed) is a [Host]. *)

(** Step 2 of [generate_report], on a generator whose data is loaded:
    the eight sections, concatenated in this order. *)
Definition latex_content (w : World) (self : BeamReportGenerator)
  : result string :=
  let latex_content := EmptyString in
  let latex_content := latex_content ++ _create_preamble self in
  let latex_content := latex_content ++ _create_title_page w self in
  let latex_content := latex_content ++ _create_toc self in
  let latex_content := latex_content ++ _create_introduction self in
  s <- _create_data_table self ;;
  let latex_content := latex_content ++ s in
  s <- _create_sfd_diagram self ;;
  let latex_content := latex_content ++ s in
  s <- _create_bmd_diagram self ;;
  let latex_content := latex_content ++ s in
  s <- _create_conclusion self ;;
  let latex_content := latex_content ++ s in
  Ok latex_content.

Module IO.

(** What can be raised during a run: the exceptions of the data and text
    part, or the failure of the operating system to write or remove a
    file (PermissionError or another OSError). *)
Inductive raised : Type :=
| Py (e : exn)
| PermissionError.

(** The files that exist, with their text. *)
Definition Disk : Type := string -> option string.

Definition update (d : Disk) (path : string) (content : option string)
  : Disk :=
  fun p => if String.eqb p path then content else d p.

Record Sys : Type := {
  disk : Disk;
  stdout : list string;      (* the lines printed so far *)
  commands : list string     (* the command lines given to [os.system] *)
}.

Record Host : Type := {
  env : World;
  path_join : string -> string -> string;       (* os.path.join *)
  path_dirname : string -> string;              (* os.path.dirname *)
  os_system : string -> Disk -> Z * Disk;       (* exit status, files left *)
  locked : string -> bool;                      (* no write, no removal *)
  failed_write : string -> string -> option string -> option string;
      (* what a write that fails leaves at the path: the file as it was
         when it could not be opened, an empty or partly written file
         when it was opened and the writing failed *)
  error_text : raised -> string -> string;      (* str(e) for a path *)
  script_dir : string      (* os.path.dirname(os.path.abspath(__file__)) *)
}.

Inductive outcome (A : Type) : Type :=
| Done (a : A)
| Raise (e : raised).
Arguments Done {A} a.
Arguments Raise {A} e.

Definition IO (A : Type) : Type := Sys -> outcome A * Sys.

Definition ret {A : Type} (a : A) : IO A := fun s => (Done a, s).

Definition io_bind {A B : Type} (c : IO A) (k : A -> IO B) : IO B :=
  fun s =>
    match c s with
    | (Done a, s') => k a s'
    | (Raise e, s') => (Raise e, s')
    end.

Notation "x <~ c1 ;; c2" := (io_bind c1 (fun x => c2))
  (at level 61, c1 at next level, right associativity).
Notation "c1 >> c2" := (io_bind c1 (fun _ => c2))
  (at level 61, right associativity).

(** [try: body except Exception as e: handler(e)] *)
Definition try_except {A : Type} (body : IO A) (handler : raised -> IO A)
  : IO A :=
  fun s =>
    match body s with
    | (Done a, s') => (Done a, s')
    | (Raise e, s') => handler e s'
    end.

(** [for item in items: body(item)] *)
Fixpoint for_each {A : Type} (items : list A) (body : A -> IO unit)
  : IO unit :=
  match items with
  | [] => ret tt
  | item :: rest => body item >> for_each rest body
  end.

(** Running the data and text part: its exceptions propagate. *)
Definition lift {A : Type} (r : result A) : IO A :=
  fun s =>
    match r with
    | Ok a => (Done a, s)
    | Err e => (Raise (Py e), s)
    end.

Definition print (line : string) : IO unit :=
  fun s =>
    (Done tt, {| disk := disk s;
                 stdout := (stdout s ++ [line])%list;
                 commands := commands s |}).

(** [os.path.exists(path)] *)
Definition path_exists (path : string) : IO bool :=
  fun s =>
    (Done (match disk s path with Some _ => true | None => false end), s).

(** [with open(path, 'w', encoding='utf-8') as f: f.write(text)]:
    opening creates or empties the file before anything is written, so a
    failure can leave the path changed. *)
Definition write_file (h : Host) (path text : string) : IO unit :=
  fun s =>
    if locked h path then
      (Raise PermissionError,
       {| disk := update (disk s) path
                    (failed_write h path text (disk s path));
          stdout := stdout s;
          commands := commands s |})
    else (Done tt, {| disk := update (disk s) path (Some text);
                      stdout := stdout s;
                      commands := commands s |}).

(** [os.remove(path)] *)
Definition os_remove (h : Host) (path : string) : IO unit :=
  fun s =>
    match disk s path with
    | None => (Raise (Py FileNotFoundError), s)
    | Some _ =>
        if locked h path then (Raise PermissionError, s)
        else (Done tt, {| disk := update (disk s) path None;
                          stdout := stdout s;
                          commands := commands s |})
    end.

(** [os.system(command)] *)
Definition system (h : Host) (command : string) : IO Z :=
  fun s =>
    let '(status, files) := os_system h command (disk s) in
    (Done status, {| disk := files;
                     stdout := stdout s;
                     commands := (commands s ++ [command])%list |}).

(** [s * n] *)
Fixpoint times (s : string) (n : nat) : string :=
  match n with
  | O => EmptyString
  | S k => s ++ times s k
  end.

(** [f"{n}"] for an int. *)
Definition int_str (n : Z) : string :=
  if Z.ltb n 0 then "-" ++ Z_digits (- n) else Z_digits n.

Definition dquote : string := String (ascii_of_nat 34) EmptyString.

Definition load_data (h : Host) (self : BeamReportGenerator)
  : IO BeamReportGenerator :=
  print "[INFO] Loading data from Excel file..." >>
  self <~ lift (load_data (env h) self) ;;
  df <~ lift (the_data self) ;;
  print ("[INFO] Loaded " ++ int_str (Z.of_nat (List.length df))
         ++ " data points") >>
  print ("[INFO] Beam length: "
         ++ cell_str (dtype_of (column x df)) (beam_length self) ++ " m") >>
  ret self.

(** The command line of one pdflatex pass. *)
Definition pdflatex_command (self : BeamReportGenerator)
  (output_dir : string) : string :=
  "cd /d " ++ dquote ++ output_dir ++ dquote
    ++ " && pdflatex -interaction=nonstopmode " ++ dquote
    ++ output_name self ++ ".tex" ++ dquote.

(** The body of [for run in range(2)]. *)
Definition pdflatex_run (h : Host) (self : BeamReportGenerator)
  (output_dir : string) (run : Z) : IO unit :=
  print ("[INFO] pdflatex run " ++ int_str (run + 1) ++ "/2...") >>
  result <~ system h (pdflatex_command self output_dir) ;;
  if negb (Z.eqb result 0) then
    print ("[WARNING] pdflatex returned non-zero exit code: "
           ++ int_str result)
  else ret tt.

Definition aux_extensions : list string := [".aux"; ".log"; ".out"; ".toc"].

(** The body of [for ext in aux_extensions]. *)
Definition cleanup_one (h : Host) (self : BeamReportGenerator)
  (output_dir ext : string) : IO unit :=
  let aux_file := path_join h output_dir (output_name self ++ ext) in
  found <~ path_exists aux_file ;;
  if found then
    try_except
      (os_remove h aux_file >>
       print ("[INFO] Cleaned up: " ++ aux_file))
      (fun e =>
         print ("[WARNING] Could not remove " ++ aux_file ++ ": "
                ++ error_text h e aux_file))
  else ret tt.

Definition _cleanup_aux_files (h : Host) (self : BeamReportGenerator)
  (output_dir : string) : IO unit :=
  for_each aux_extensions (cleanup_one h self output_dir).

Definition generate_report (h : Host) (self : BeamReportGenerator)
  : IO string :=
  print (times "=" 60) >>
  print "BEAM ANALYSIS REPORT GENERATOR" >>
  print (times "=" 60) >>
  (* Step 1: Load the data *)
  self <~ load_data h self ;;
  (* Step 2: Generate LaTeX content *)
  print "[INFO] Generating LaTeX document..." >>
  latex_content <~ lift (latex_content (env h) self) ;;
  (* Step 3: Write the .tex file *)
  let tex_path :=
    path_join h (path_dirname h (excel_path self))
              (output_name self ++ ".tex") in
  print ("[INFO] Writing LaTeX file: " ++ tex_path) >>
  write_file h tex_path latex_content >>
  (* Step 4: Compile to PDF *)
  print "[INFO] Compiling LaTeX to PDF..." >>
  let output_dir := path_dirname h (excel_path self) in
  (* Run pdflatex twice for TOC and references *)
  for_each [0; 1] (pdflatex_run h self output_dir) >>
  let pdf_path := path_join h output_dir (output_name self ++ ".pdf") in
  found <~ path_exists pdf_path ;;
  (if found then
     print (times "=" 60) >>
     print ("[SUCCESS] PDF generated: " ++ pdf_path) >>
     print (times "=" 60)
   else
     print "[ERROR] PDF generation failed. Check the .tex file for errors.") >>
  (* Clean up auxiliary files *)
  _cleanup_aux_files h self output_dir >>
  ret pdf_path.

Definition main (h : Host) : IO unit :=
  (* Define file paths *)
  let excel_path := path_join h (script_dir h) "Force Table.xlsx" in
  let beam_image_path :=
    path_join h (script_dir h) "simply_supported_beam.png" in
  let output_name := "Beam_Analysis_Report" in
  (* Verify input files exist *)
  found <~ path_exists excel_path ;;
  if negb found then
    print ("[ERROR] Excel file not found: " ++ excel_path)
  else
    found <~ path_exists beam_image_path ;;
    if negb found then
      print ("[ERROR] Beam image not found: " ++ beam_image_path)
    else
      (* Create and run the report generator *)
      let generator := __init__ excel_path beam_image_path output_name in
      pdf_path <~ generate_report h generator ;;
      print (newline ++ "[INFO] Report generation complete!") >>
      print ("[INFO] Output file: " ++ pdf_path).

End IO.

(** ** Vocabulary of the further properties *)

(** A column with at least one cell that is not missing. *)
Definition some_value_in (s : Series) : Prop :=
  exists v, In v s /\ Float64.is_nan v = false.

(** The paths [_cleanup_aux_files] looks at. *)
Definition aux_files (h : IO.Host) (self : BeamReportGenerator)
  (output_dir : string) : list string :=
  map (fun ext => IO.path_join h output_dir (output_name self ++ ext))
      IO.aux_extensions.

(** The files that [_cleanup_aux_files] leaves, given the files [d] it
    finds: an auxiliary file that can be removed is gone, everything else
    is as it was. *)
Definition cleaned (h : IO.Host) (targets : list string) (d : IO.Disk)
  : IO.Disk :=
  fun p =>
    if existsb (String.eqb p) targets && negb (IO.locked h p) then None
    else d p.

(** *** A sample machine

    Paths are joined with a slash, the directory of a path is what
    precedes its last slash, and the typesetter leaves a PDF, an
    [.aux] and a [.log] file next to the source and reports [status]. *)
Fixpoint before_last_slash (s : string) : option string :=
  match s with
  | EmptyString => None
  | String c rest =>
      match before_last_slash rest with
      | Some d => Some (String c d)
      | None => if Ascii.eqb c "/" then Some EmptyString else None
      end
  end.

Definition sample_dirname (s : string) : string :=
  match before_last_slash s with
  | Some d => d
  | None => EmptyString
  end.

Definition sample_typesetter (status : Z) (command : string) (d : IO.Disk)
  : Z * IO.Disk :=
  (status,
   IO.update
     (IO.update
        (IO.update d "/work/Beam_Analysis_Report.pdf" (Some "%PDF-1.5"))
        "/work/Beam_Analysis_Report.aux" (Some "\relax"))
     "/work/Beam_Analysis_Report.log" (Some "This is pdfTeX")).

Definition sample_host (df : DataFrame) (status : Z) : IO.Host :=
  {| IO.env := world (at_time 3 9) df;
     IO.path_join := fun d n => d ++ "/" ++ n;
     IO.path_dirname := sample_dirname;
     IO.os_system := sample_typesetter status;
     IO.locked := fun _ => false;
     IO.failed_write := fun _ _ file => file;
     IO.error_text := fun _ _ => "Permission denied";
     IO.script_dir := "/work" |}.

(** A machine holding the workbook and the image, nothing printed yet. *)
Definition sample_start : IO.Sys :=
  {| IO.disk :=
       IO.update
         (IO.update (fun _ => None) "/work/Force Table.xlsx" (Some "xlsx"))
         "/work/simply_supported_beam.png" (Some "png");
     IO.stdout := [];
     IO.commands := [] |}.

(** The generator that [main] creates on the sample machine. *)
Definition sample_generator : BeamReportGenerator :=
  __init__ "/work/Force Table.xlsx" "/work/simply_supported_beam.png"
           "Beam_Analysis_Report".

(** A table with a missing shear and a missing position. *)
Definition with_gaps : DataFrame :=
  [ row (dec 0 0) (dec 50 0) (dec 0 0);
    row (dec 2 0) Float64.nan (dec 50 0);
    row Float64.nan (dec (-50) 0) (dec 0 0) ].

(** The lines that one pass of the loop of [_create_sfd_diagram] adds to
    [positive_coords] and to [negative_coords]. *)
Definition sfd_positive_line (dt : dtype) (r : Row) : string :=
  fst (sfd_step dt (EmptyString, EmptyString) r).
Definition sfd_negative_line (dt : dtype) (r : Row) : string :=
  snd (sfd_step dt (EmptyString, EmptyString) r).

(** A table of whole numbers with a missing shear: the shear column is
    float64, the other two are int64. *)
Definition whole_with_gap : DataFrame :=
  [ row (dec 0 0) (dec 50 0) (dec 0 0);
    row (dec 2 0) Float64.nan (dec 50 0);
    row (dec 4 0) (dec (-50) 0) (dec 0 0) ].

(** The command line given to [os.system] for one pass: change to the
    directory, then typeset the [.tex] file named after the output, both
    between double quotes. *)
Definition quoted (s : string) : string :=
  String "034" (s ++ String "034" EmptyString).

Definition typeset_command (dir name : string) : string :=
  "cd /d " ++ quoted dir ++ " && pdflatex -interaction=nonstopmode "
    ++ quoted (name ++ ".tex").

(** The directory and the two paths that [generate_report] computes. *)
Definition output_dir (h : IO.Host) (self : BeamReportGenerator) : string :=
  IO.path_dirname h (excel_path self).
Definition tex_path (h : IO.Host) (self : BeamReportGenerator) : string :=
  IO.path_join h (output_dir h self) (output_name self ++ ".tex").
Definition pdf_path (h : IO.Host) (self : BeamReportGenerator) : string :=
  IO.path_join h (output_dir h self) (output_name self ++ ".pdf").

(** The files after the [.tex] file is written with [text] and the
    command line has been given to the shell twice. *)
Definition typeset_twice (h : IO.Host) (self : BeamReportGenerator)
  (text : string) (d : IO.Disk) : IO.Disk :=
  let command := typeset_command (output_dir h self) (output_name self) in
  let written := IO.update d (tex_path h self) (Some text) in
  snd (IO.os_system h command (snd (IO.os_system h command written))).

(** A machine whose typesetter fails and leaves nothing. *)
Definition broken_host (df : DataFrame) : IO.Host :=
  {| IO.env := world (at_time 3 9) df;
     IO.path_join := fun d n => d ++ "/" ++ n;
     IO.path_dirname := sample_dirname;
     IO.os_system := fun _ d => (1, d);
     IO.locked := fun _ => false;
     IO.failed_write := fun _ _ file => file;
     IO.error_text := fun _ _ => "Permission denied";
     IO.script_dir := "/work" |}.

(** Two states with the same files and the same commands started: they
    differ by what was printed only. *)
Definition same_files (s s' : IO.Sys) : Prop :=
  IO.disk s' = IO.disk s /\ IO.commands s' = IO.commands s.

(** A machine on which the [.tex] file is opened and emptied but cannot
    be written. *)
Definition locked_host (df : DataFrame) : IO.Host :=
  {| IO.env := world (at_time 3 9) df;
     IO.path_join := fun d n => d ++ "/" ++ n;
     IO.path_dirname := sample_dirname;
     IO.os_system := fun _ d => (1, d);
     IO.locked := String.eqb "/work/Beam_Analysis_Report.tex";
     IO.failed_write := fun _ _ _ => Some EmptyString;
     IO.error_text := fun _ _ => "Permission denied";
     IO.script_dir := "/work" |}.

(** The generator that [main] creates. *)
Definition main_generator (h : IO.Host) : BeamReportGenerator :=
  __init__ (IO.path_join h (IO.script_dir h) "Force Table.xlsx")
           (IO.path_join h (IO.script_dir h) "simply_supported_beam.png")
           "Beam_Analysis_Report".

(** The text of a file, read as the outcome of building it. *)
Definition option_map_result (file : option string) : result string :=
  match file with
  | Some text => Ok text
  | None => Err FileNotFoundError
  end.

(** A generator given Windows paths. *)
Definition windows_generator : BeamReportGenerator :=
  __init__ "C:\work\Force Table.xlsx" "C:\work\beam.png"
           "Beam_Analysis_Report".

(** * Supporting lemmas *)

(** ** The order of binary64 numbers *)

Lemma compare_cont_Eq (p q : positive) :
  Pos.compare_cont Eq p q = Pos.compare p q.
Proof. reflexivity. Qed.

Ltac order_cases :=
  repeat match goal with
  | |- context [Z.compare ?a ?b] => destruct (Z.compare_spec a b); subst
  | |- context [Pos.compare ?a ?b] => destruct (Pos.compare_spec a b); subst
  | H : context [Z.compare ?a ?b] |- _ => destruct (Z.compare_spec a b); subst
  | H : context [Pos.compare ?a ?b] |- _ => destruct (Pos.compare_spec a b); subst
  end.

(** Case analysis on the shape and sign of every float in sight; what is
    left are comparisons of exponents and mantissas. *)
Ltac float_order :=
  unfold Float64.ltb, Float64.leb, Float64.eqb, Float64.geb,
    SFltb, SFleb, SFeqb, Float64.is_nan;
  intros;
  repeat match goal with f : float |- _ => destruct f as [[]|[]| |[] ? ?] end;
  cbn [SFcompare] in *; rewrite ?compare_cont_Eq in *;
  try discriminate; try reflexivity;
  order_cases; cbn in *; try discriminate; try reflexivity; try lia.

Lemma leb_refl (a : float) :
  Float64.is_nan a = false -> Float64.leb a a = true.
Proof. float_order. Qed.

Lemma ltb_false_leb (a b : float) :
  Float64.is_nan a = false -> Float64.is_nan b = false ->
  Float64.ltb a b = false -> Float64.leb b a = true.
Proof. float_order. Qed.

Lemma ltb_leb (a b : float) :
  Float64.ltb a b = true -> Float64.leb a b = true.
Proof. float_order. Qed.

Lemma leb_ltb_trans (a b c : float) :
  Float64.leb a b = true -> Float64.ltb b c = true -> Float64.ltb a c = true.
Proof. float_order. Qed.

Lemma ltb_leb_trans (a b c : float) :
  Float64.ltb a b = true -> Float64.leb b c = true -> Float64.ltb a c = true.
Proof. float_order. Qed.

Lemma leb_false_ltb (a b : float) :
  Float64.is_nan a = false -> Float64.is_nan b = false ->
  Float64.leb a b = false -> Float64.ltb b a = true.
Proof. float_order. Qed.

Lemma leb_ltb_exclusive (a b : float) :
  Float64.leb a b = true -> Float64.ltb b a = false.
Proof. float_order. Qed.

(** ** The numpy reductions find the first extreme *)

Lemma no_nan_app (s t : Series) : no_nan (s ++ t)%list -> no_nan s /\ no_nan t.
Proof.
  unfold no_nan. intros H. apply Forall_app in H. exact H.
Qed.

Lemma no_nan_In (s : Series) (v : float) :
  no_nan s -> In v s -> Float64.is_nan v = false.
Proof.
  unfold no_nan. rewrite Forall_forall. intros H Hin. exact (H v Hin).
Qed.

Section FirstExtreme.

Variables le lt : float -> float -> bool.
Hypothesis le_refl' : forall a, Float64.is_nan a = false -> le a a = true.
Hypothesis lt_total : forall a b,
  Float64.is_nan a = false -> Float64.is_nan b = false ->
  lt a b = false -> le b a = true.
Hypothesis lt_le : forall a b, lt a b = true -> le a b = true.
Hypothesis le_lt_trans : forall a b c,
  le a b = true -> lt b c = true -> lt a c = true.

(** The scan, resumed after the prefix [pre] whose first extreme is
    [best] at index [bi], ends on the first extreme of the whole array. *)
Lemma np_arg_from_first (rest : list float) :
  forall (pre : list float) (best : float) (bi : nat),
    no_nan (pre ++ rest)%list ->
    first_extreme le lt pre bi best ->
    first_extreme le lt (pre ++ rest)%list
      (np_arg_from lt best bi (List.length pre) rest)
      (fold_left (fun b w => if lt b w then w else b) rest best).
Proof.
  induction rest as [|v rest IH]; intros pre best bi Hnan Hfirst.
  - rewrite app_nil_r. exact Hfirst.
  - destruct Hfirst as (Hat & Hall & Hbefore).
    assert (Hbi : (bi < List.length pre)%nat).
    { apply nth_error_Some. rewrite Hat. discriminate. }
    assert (Hbest : Float64.is_nan best = false).
    { apply no_nan_app in Hnan. destruct Hnan as [Hpre _].
      apply (no_nan_In pre); [exact Hpre|]. eapply nth_error_In; eauto. }
    assert (Hv : Float64.is_nan v = false).
    { apply no_nan_app in Hnan. destruct Hnan as [_ Hrest].
      apply (no_nan_In (v :: rest)); [exact Hrest|]. left; reflexivity. }
    assert (Hshift : (pre ++ v :: rest = (pre ++ [v]) ++ rest)%list).
    { rewrite <- app_assoc. reflexivity. }
    assert (Hlen : S (List.length pre) = List.length (pre ++ [v])%list).
    { rewrite length_app. simpl. lia. }
    simpl. rewrite Hshift, Hlen.
    destruct (lt best v) eqn:Hlt.
    +
      apply IH; [rewrite <- Hshift; exact Hnan|].
      split; [|split].
      * rewrite nth_error_app2 by lia. rewrite Nat.sub_diag. reflexivity.
      * intros w Hin. apply in_app_or in Hin. destruct Hin as [Hin|[<-|[]]].
        -- apply lt_le. eapply le_lt_trans; [apply Hall; exact Hin|exact Hlt].
        -- apply le_refl'. exact Hv.
      * intros j w Hj Hnth. rewrite nth_error_app1 in Hnth by exact Hj.
        eapply le_lt_trans; [|exact Hlt].
        apply Hall. eapply nth_error_In; eauto.
    + apply IH; [rewrite <- Hshift; exact Hnan|].
      split; [|split].
      * rewrite nth_error_app1 by exact Hbi. exact Hat.
      * intros w Hin. apply in_app_or in Hin. destruct Hin as [Hin|[<-|[]]].
        -- apply Hall. exact Hin.
        -- apply lt_total; assumption.
      * intros j w Hj Hnth. rewrite nth_error_app1 in Hnth by lia.
        eapply Hbefore; eauto.
Qed.

Lemma np_arg_first (s : list float) :
  s <> [] -> no_nan s ->
  exists i, np_arg lt s = Ok i /\ first_extreme le lt s i (np_reduce lt s).
Proof.
  destruct s as [|v rest]; [congruence|]. intros _ Hnan.
  exists (np_arg_from lt v 0 1 rest). split; [reflexivity|].
  apply (np_arg_from_first rest [v] v 0%nat); [exact Hnan|].
  split; [reflexivity|split].
  - intros w [<-|[]]. apply le_refl'.
    apply (no_nan_In (v :: rest)); [exact Hnan|left; reflexivity].
  - intros j w Hj. lia.
Qed.

End FirstExtreme.

Lemma fill_neg_inf_id (s : Series) : no_nan s -> map fill_neg_inf s = s.
Proof.
  induction 1 as [|v s Hv _ IH]; [reflexivity|].
  simpl. unfold fill_neg_inf at 1. rewrite Hv, IH. reflexivity.
Qed.

Lemma fill_pos_inf_id (s : Series) : no_nan s -> map fill_pos_inf s = s.
Proof.
  induction 1 as [|v s Hv _ IH]; [reflexivity|].
  simpl. unfold fill_pos_inf at 1. rewrite Hv, IH. reflexivity.
Qed.

Lemma some_value (s : Series) :
  s <> [] -> no_nan s -> forallb Float64.is_nan s = false.
Proof.
  destruct s as [|v rest]; [congruence|]. intros _ Hnan.
  inversion Hnan as [|? ? Hv _]; subst. simpl. rewrite Hv. reflexivity.
Qed.

Lemma idxmax_first_max (s : Series) :
  s <> [] -> no_nan s ->
  exists i, idxmax s = Ok i /\ first_max s i (Pandas.max s).
Proof.
  intros Hne Hnan. unfold idxmax, Pandas.max.
  rewrite (some_value s Hne Hnan), (fill_neg_inf_id s Hnan).
  apply (np_arg_first Float64.leb greater); auto.
  - exact leb_refl.
  - exact ltb_false_leb.
  - exact ltb_leb.
  - exact leb_ltb_trans.
Qed.

Lemma idxmin_first_min (s : Series) :
  s <> [] -> no_nan s ->
  exists i, idxmin s = Ok i /\ first_min s i (Pandas.min s).
Proof.
  intros Hne Hnan. unfold idxmin, Pandas.min.
  rewrite (some_value s Hne Hnan), (fill_pos_inf_id s Hnan).
  apply (np_arg_first (fun a b => Float64.leb b a) smaller); auto.
  - exact leb_refl.
  - intros a b Ha Hb. unfold smaller. apply ltb_false_leb; assumption.
  - intros a b. unfold smaller. apply ltb_leb.
  - intros a b c Hab Hbc. unfold smaller in *.
    eapply ltb_leb_trans; eauto.
Qed.

(** ** Strings *)

Lemma append_assoc (a b c : string) : (a ++ b) ++ c = a ++ (b ++ c).
Proof.
  induction a as [|ch a IH]; [reflexivity|]. simpl. rewrite IH. reflexivity.
Qed.

Lemma append_empty_r (a : string) : a ++ EmptyString = a.
Proof.
  induction a as [|ch a IH]; [reflexivity|]. simpl. rewrite IH. reflexivity.
Qed.

Lemma length_append (a b : string) :
  String.length (a ++ b) = (String.length a + String.length b)%nat.
Proof.
  induction a as [|ch a IH]; [reflexivity|]. simpl. rewrite IH. reflexivity.
Qed.

Lemma all_digits_append (a b : string) :
  all_digits (a ++ b) = all_digits a && all_digits b.
Proof.
  induction a as [|ch a IH]; [reflexivity|].
  simpl. rewrite IH. apply andb_assoc.
Qed.

(** A loop that appends one fragment per item builds the concatenation of
    the fragments, in the order of the items. *)
Lemma fold_left_append {A : Type} (f : A -> string) (items : list A) :
  forall init : string,
    fold_left (fun acc item => acc ++ f item) items init
    = init ++ flat (map f items).
Proof.
  induction items as [|item items IH]; intros init; simpl.
  - rewrite append_empty_r. reflexivity.
  - rewrite IH, append_assoc. reflexivity.
Qed.

Lemma fold_left_ext {A B : Type} (f g : A -> B -> A) (items : list B) :
  (forall acc item, f acc item = g acc item) ->
  forall init, fold_left f items init = fold_left g items init.
Proof.
  intros H. induction items as [|item items IH]; intros init; simpl.
  - reflexivity.
  - rewrite H. apply IH.
Qed.

Lemma prefix_append (p s : string) : prefix p (p ++ s) = true.
Proof.
  induction p as [|c p IH]; [destruct s; reflexivity|].
  cbn [append prefix]. destruct (Ascii.ascii_dec c c); [exact IH|congruence].
Qed.

Lemma prefix_split (p s : string) :
  prefix p s = true -> exists rest, s = p ++ rest.
Proof.
  revert s. induction p as [|c p IH]; intros s H.
  - exists s. reflexivity.
  - destruct s as [|d s]; [discriminate|]. simpl in H.
    destruct (Ascii.ascii_dec c d) as [->|]; [|discriminate].
    destruct (IH s H) as [rest ->]. exists rest. reflexivity.
Qed.

(** [occurs] finds contiguous parts only. *)
Lemma occurs_split (needle hay : string) :
  occurs needle hay = true ->
  exists before after, hay = before ++ needle ++ after.
Proof.
  induction hay as [|c hay IH]; intros H; cbn [occurs] in H.
  - rewrite orb_false_r in H. destruct (prefix_split _ _ H) as [rest ->].
    exists EmptyString, rest. reflexivity.
  - apply orb_true_iff in H. destruct H as [H|H].
    + destruct (prefix_split _ _ H) as [rest ->].
      exists EmptyString, rest. reflexivity.
    + destruct (IH H) as (before & after & ->).
      exists (String c before), after. reflexivity.
Qed.

(** ** Fixed notation has the digits it is asked for *)

Lemma is_digit_digit_char (z : Z) : is_digit (digit_char (z mod 10)) = true.
Proof.
  unfold digit_char.
  assert (H : (Z.to_nat (z mod 10) < 10)%nat).
  { pose proof (Z.mod_pos_bound z 10 eq_refl). lia. }
  revert H. generalize (Z.to_nat (z mod 10)). intros k Hk.
  do 10 (destruct k as [|k]; [reflexivity|]). lia.
Qed.

Lemma padded_digits_spec (n : nat) :
  forall z, all_digits (padded_digits n z) = true /\
            String.length (padded_digits n z) = n.
Proof.
  induction n as [|n IH]; intros z; cbn [padded_digits];
    [split; reflexivity|].
  destruct (IH (z / 10)) as [Hd Hl]. split.
  - rewrite all_digits_append, Hd. cbn [all_digits andb].
    rewrite is_digit_digit_char. reflexivity.
  - rewrite length_append, Hl. cbn [String.length]. lia.
Qed.

Lemma zeros_spec (n : nat) :
  all_digits (zeros n) = true /\ String.length (zeros n) = n.
Proof.
  induction n as [|n [Hd Hl]]; simpl; [split; reflexivity|].
  rewrite Hd, Hl. split; reflexivity.
Qed.

Lemma uint_digits (d : Decimal.uint) :
  all_digits (NilEmpty.string_of_uint d) = true.
Proof.
  induction d; simpl; try rewrite IHd; reflexivity.
Qed.

Lemma Z_digits_spec (z : Z) :
  all_digits (Z_digits z) = true /\ Z_digits z <> EmptyString.
Proof.
  unfold Z_digits, NilZero.string_of_uint.
  destruct (N.to_uint (Z.to_N z)) as [|d|d|d|d|d|d|d|d|d|d] eqn:E;
    (split; [first [reflexivity | apply (uint_digits (Decimal.D0 d))
                   | apply (uint_digits (Decimal.D1 d))
                   | apply (uint_digits (Decimal.D2 d))
                   | apply (uint_digits (Decimal.D3 d))
                   | apply (uint_digits (Decimal.D4 d))
                   | apply (uint_digits (Decimal.D5 d))
                   | apply (uint_digits (Decimal.D6 d))
                   | apply (uint_digits (Decimal.D7 d))
                   | apply (uint_digits (Decimal.D8 d))
                   | apply (uint_digits (Decimal.D9 d))]
            | simpl; discriminate]).
Qed.

Lemma fixed_has_decimals (n : nat) (f : float) :
  Float64.is_finite f = true -> has_decimals (S n) (fixed (S n) f).
Proof.
  destruct f as [s|s| |s m e]; try discriminate; intros _.
  - exists (sign_str s), "0", (zeros (S n)).
    destruct (zeros_spec (S n)) as [Hd Hl].
    split; [reflexivity|].
    split; [destruct s; [right|left]; reflexivity|].
    split; [discriminate|].
    split; [reflexivity|].
    split; assumption.
  - unfold fixed.
    set (k := scaled_magnitude (S n) m e). set (p10 := 10 ^ Z.of_nat (S n)).
    exists (sign_str s), (Z_digits (k / p10)), (padded_digits (S n) (k mod p10)).
    destruct (padded_digits_spec (S n) (k mod p10)) as [Hd Hl].
    destruct (Z_digits_spec (k / p10)) as [Hw Hne].
    split; [reflexivity|].
    split; [destruct s; [right|left]; reflexivity|].
    split; [exact Hne|].
    split; [exact Hw|].
    split; assumption.
Qed.

Lemma fmt1_has_decimals (f : float) :
  Float64.is_finite f = true -> has_decimals 1 (fmt1 f).
Proof. apply fixed_has_decimals. Qed.

Lemma fmt2_has_decimals (f : float) :
  Float64.is_finite f = true -> has_decimals 2 (fmt2 f).
Proof. apply fixed_has_decimals. Qed.

(** ** Columns and rows *)

Lemma nth_error_column (name : Row -> float) (df : DataFrame) (i : nat)
  (v : float) :
  nth_error (column name df) i = Some v ->
  exists r, nth_error df i = Some r /\ name r = v.
Proof.
  unfold column. rewrite nth_error_map.
  destruct (nth_error df i) as [r|]; simpl; [|discriminate].
  intros [= <-]. exists r. split; reflexivity.
Qed.

Lemma column_nonempty (name : Row -> float) (df : DataFrame) :
  df <> [] -> column name df <> [].
Proof. destruct df; [congruence|discriminate]. Qed.

Lemma idxmax_row (name : Row -> float) (df : DataFrame) :
  df <> [] -> no_nan (column name df) ->
  exists i r,
    idxmax (column name df) = Ok i /\ loc df i x = Ok (x r) /\
    Pandas.max (column name df) = name r /\ first_max_row name df i r.
Proof.
  intros Hne Hnan.
  destruct (idxmax_first_max _ (column_nonempty name df Hne) Hnan)
    as (i & Hidx & Hfirst).
  destruct (nth_error_column name df i _ (proj1 Hfirst)) as (r & Hr & Hv).
  exists i, r. unfold loc, first_max_row. rewrite Hr.
  split; [exact Hidx|]. split; [reflexivity|].
  split; [symmetry; exact Hv|]. split; [reflexivity|].
  rewrite Hv. exact Hfirst.
Qed.

Lemma idxmin_row (name : Row -> float) (df : DataFrame) :
  df <> [] -> no_nan (column name df) ->
  exists i r,
    idxmin (column name df) = Ok i /\ loc df i x = Ok (x r) /\
    Pandas.min (column name df) = name r /\ first_min_row name df i r.
Proof.
  intros Hne Hnan.
  destruct (idxmin_first_min _ (column_nonempty name df Hne) Hnan)
    as (i & Hidx & Hfirst).
  destruct (nth_error_column name df i _ (proj1 Hfirst)) as (r & Hr & Hv).
  exists i, r. unfold loc, first_min_row. rewrite Hr.
  split; [exact Hidx|]. split; [reflexivity|].
  split; [symmetry; exact Hv|]. split; [reflexivity|].
  rewrite Hv. exact Hfirst.
Qed.

Lemma finite_not_nan (v : float) :
  Float64.is_finite v = true -> Float64.is_nan v = false.
Proof. destruct v; simpl; congruence. Qed.

Lemma finite_rows_no_nan (df : DataFrame) :
  Forall finite_row df ->
  no_nan (column x df) /\ no_nan (column Shear_force df) /\
  no_nan (column Bending_Moment df).
Proof.
  unfold no_nan, column. rewrite !Forall_map.
  intros H. repeat split; eapply Forall_impl; try exact H;
    intros r (Hx & Hs & Hm); apply finite_not_nan; assumption.
Qed.

(** ** The zero-shear location *)

Lemma zero_shear_first (df : DataFrame) :
  forall i r,
    first_zero_shear_row df i r ->
    contains (Float64.of_Z 0) (column Shear_force df) = true /\
    first (loc_mask df (eq_mask (column Shear_force df) (Float64.of_Z 0)) x)
    = Ok (x r).
Proof.
  induction df as [|head df IH]; intros i r (Hat & Hzero & Hbefore).
  - destruct i; discriminate.
  - destruct i as [|i].
    + injection Hat as ->.
      cbn [column map contains existsb eq_mask loc_mask].
      rewrite Hzero. split; reflexivity.
    + assert (Hhead : Float64.eqb (Shear_force head) (Float64.of_Z 0) = false).
      { apply (Hbefore 0%nat head); [lia|reflexivity]. }
      destruct (IH i r) as [Hc Hf].
      { split; [exact Hat|split; [exact Hzero|]].
        intros j r' Hj Hnth. apply (Hbefore (S j) r'); [lia|exact Hnth]. }
      cbn [column map contains existsb eq_mask loc_mask].
      rewrite Hhead. split; [exact Hc|exact Hf].
Qed.

Lemma first_zero_exists (df : DataFrame) :
  (exists r, In r df /\ Float64.eqb (Shear_force r) (Float64.of_Z 0) = true) ->
  exists i r, first_zero_shear_row df i r.
Proof.
  induction df as [|head df IH]; intros (r & Hin & Hzero); [destruct Hin|].
  destruct (Float64.eqb (Shear_force head) (Float64.of_Z 0)) eqn:Hhead.
  - exists 0%nat, head. split; [reflexivity|split; [exact Hhead|]].
    intros j r' Hj. lia.
  - destruct Hin as [->|Hin]; [congruence|].
    destruct IH as (i & r' & Hat & Hz & Hbefore); [exists r; auto|].
    exists (S i), r'. split; [exact Hat|split; [exact Hz|]].
    intros [|j] r'' Hj Hnth.
    + injection Hnth as <-. exact Hhead.
    + apply (Hbefore j r''); [lia|exact Hnth].
Qed.

Lemma contains_row (df : DataFrame) (z : float) :
  contains z (column Shear_force df) = true ->
  exists r, In r df /\ Float64.eqb (Shear_force r) z = true.
Proof.
  unfold contains, column. rewrite existsb_exists.
  intros (w & Hin & Heq). apply in_map_iff in Hin.
  destruct Hin as (r & <- & Hin). exists r. auto.
Qed.

Lemma zero_shear_location_first (df : DataFrame) (i : nat) (r : Row) :
  first_zero_shear_row df i r ->
  zero_shear_location df = Ok (cell_str (dtype_of (column x df)) (x r)).
Proof.
  intros H. destruct (zero_shear_first df i r H) as [Hc Hf].
  unfold zero_shear_location. rewrite Hc, Hf. reflexivity.
Qed.

Lemma zero_shear_location_none (df : DataFrame) :
  (forall r, In r df ->
             Float64.eqb (Shear_force r) (Float64.of_Z 0) = false) ->
  zero_shear_location df = Ok "N/A".
Proof.
  intros H. unfold zero_shear_location.
  destruct (contains (Float64.of_Z 0) (column Shear_force df)) eqn:Hc;
    [|reflexivity].
  destruct (contains_row df _ Hc) as (r & Hin & Hz).
  rewrite (H r Hin) in Hz. discriminate.
Qed.

(** The conditional never raises: either a row has shear 0 and the first
    such row gives the text, or the text is the marker. *)
Lemma zero_shear_location_cases (df : DataFrame) :
  (exists i r, first_zero_shear_row df i r /\
               zero_shear_location df
               = Ok (cell_str (dtype_of (column x df)) (x r))) \/
  ((forall r, In r df ->
              Float64.eqb (Shear_force r) (Float64.of_Z 0) = false) /\
   zero_shear_location df = Ok "N/A").
Proof.
  destruct (contains (Float64.of_Z 0) (column Shear_force df)) eqn:Hc.
  - left. destruct (first_zero_exists df (contains_row df _ Hc)) as (i & r & H).
    exists i, r. split; [exact H|]. apply (zero_shear_location_first df i r H).
  - right.
    assert (Hnone : forall r, In r df ->
              Float64.eqb (Shear_force r) (Float64.of_Z 0) = false).
    { intros r Hin.
      destruct (Float64.eqb (Shear_force r) (Float64.of_Z 0)) eqn:Hz;
        [|reflexivity].
      assert (Hex : existsb (fun w => Float64.eqb w (Float64.of_Z 0))
                      (column Shear_force df) = true).
      { apply existsb_exists. exists (Shear_force r). split; [|exact Hz].
        unfold column. apply in_map. exact Hin. }
      unfold contains in Hc. rewrite Hex in Hc. discriminate. }
    split; [exact Hnone|]. apply zero_shear_location_none. exact Hnone.
Qed.

(** ** The data table chapter *)

Lemma table_rows_flat (df : DataFrame) :
  table_rows df
  = Tex.data_table_0 ++
    flat (map (fun r => formatted_row (fmt1 (x r)) (fmt2 (Shear_force r))
                                      (fmt2 (Bending_Moment r))) df).
Proof.
  unfold table_rows. rewrite <- fold_left_append.
  apply fold_left_ext. intros acc r. cbv zeta.
  unfold table_line, table_rule, formatted_row.
  rewrite !append_assoc. reflexivity.
Qed.

(** On a table with at least one row and no missing shear or moment,
    [_create_data_table] returns; the values it splices into the
    interpretation are those of the first rows holding the extremes. *)
Lemma _create_data_table_ok (self : BeamReportGenerator) (df : DataFrame) :
  data self = Some df -> df <> [] ->
  no_nan (column Shear_force df) -> no_nan (column Bending_Moment df) ->
  exists i1 r1 i2 r2 i3 r3 zero_shear,
    first_max_row Shear_force df i1 r1 /\
    first_min_row Shear_force df i2 r2 /\
    first_max_row Bending_Moment df i3 r3 /\
    zero_shear_location df = Ok zero_shear /\
    _create_data_table self
    = Ok (table_rows df ++
          interpretation (fmt2 (Shear_force r1)) (fmt1 (x r1))
                         (fmt2 (Shear_force r2)) (fmt1 (x r2))
                         (fmt2 (Bending_Moment r3)) (fmt1 (x r3))
                         zero_shear).
Proof.
  intros Hdata Hne Hshear Hmoment.
  destruct (idxmax_row Shear_force df Hne Hshear)
    as (i1 & r1 & Hi1 & Hl1 & Hv1 & Hf1).
  destruct (idxmin_row Shear_force df Hne Hshear)
    as (i2 & r2 & Hi2 & Hl2 & Hv2 & Hf2).
  destruct (idxmax_row Bending_Moment df Hne Hmoment)
    as (i3 & r3 & Hi3 & Hl3 & Hv3 & Hf3).
  assert (Hz : exists zero_shear, zero_shear_location df = Ok zero_shear).
  { destruct (zero_shear_location_cases df) as [(i & r & _ & H)|[_ H]];
      eauto. }
  destruct Hz as [zero_shear Hz].
  exists i1, r1, i2, r2, i3, r3, zero_shear.
  repeat (split; [assumption|]).
  unfold _create_data_table, iterrows. rewrite Hdata. cbn [bind].
  rewrite Hi1. cbn [bind]. rewrite Hl1. cbn [bind].
  rewrite Hi2. cbn [bind]. rewrite Hl2. cbn [bind].
  rewrite Hi3. cbn [bind]. rewrite Hl3. cbn [bind].
  rewrite Hz. cbn [bind]. rewrite Hv1, Hv2, Hv3. reflexivity.
Qed.

(** ** The shear chart *)

Lemma sfd_step_points (dt : dtype) (pos neg : string) (r : Row) :
  Float64.is_nan (Shear_force r) = false ->
  sfd_step dt (pos, neg) r
  = (pos ++ series_text dt (spec_positive_series [r]),
     neg ++ series_text dt (spec_negative_series [r])).
Proof.
  intros Hnan.
  unfold sfd_step, series_text, spec_positive_series, spec_negative_series.
  cbn [map flat fold_right]. unfold point_text. cbn [fst snd].
  rewrite !append_empty_r. unfold Float64.geb.
  change (SFleb (Float64.of_Z 0) (Shear_force r))
    with (Float64.leb (Float64.of_Z 0) (Shear_force r)).
  destruct (Float64.leb (Float64.of_Z 0) (Shear_force r)) eqn:Hle.
  - rewrite (leb_ltb_exclusive _ _ Hle). reflexivity.
  - rewrite (leb_false_ltb (Float64.of_Z 0) (Shear_force r) eq_refl Hnan Hle).
    reflexivity.
Qed.

Lemma sfd_step_fold (dt : dtype) (df : DataFrame) :
  no_nan (column Shear_force df) ->
  forall pos neg : string,
    fold_left (sfd_step dt) df (pos, neg)
    = (pos ++ series_text dt (spec_positive_series df),
       neg ++ series_text dt (spec_negative_series df)).
Proof.
  induction df as [|r df IH]; intros Hnan pos neg.
  - cbn. rewrite !append_empty_r. reflexivity.
  - cbn [column map] in Hnan. inversion Hnan as [|? ? Hr Hrest]; subst.
    cbn [fold_left]. rewrite (sfd_step_points dt pos neg r Hr).
    rewrite (IH Hrest).
    unfold series_text, spec_positive_series, spec_negative_series.
    cbn [map flat fold_right]. rewrite !append_empty_r, !append_assoc.
    reflexivity.
Qed.

Lemma sfd_coords_series (df : DataFrame) :
  no_nan (column Shear_force df) ->
  sfd_coords df = (series_text (row_dtype df) (spec_positive_series df),
                   series_text (row_dtype df) (spec_negative_series df)).
Proof.
  intros Hnan. unfold sfd_coords.
  rewrite (sfd_step_fold (row_dtype df) df Hnan). reflexivity.
Qed.

Lemma sfd_4_end :
  exists before, Tex.sfd_4 = before ++ "] coordinates {" ++ newline.
Proof.
  exists (substring 0 (String.length Tex.sfd_4 - 16) Tex.sfd_4).
  vm_compute. reflexivity.
Qed.

(** ** The model at work *)

(** Python prints these floats the same way. *)
Example str_examples :
  str (dec 25 1) = "2.5" /\ str (dec 1 1) = "0.1" /\ str (dec 4 0) = "4.0" /\
  str (dec (-60) 0) = "-60.0" /\ str (dec 15 6) = "1.5e-05" /\
  str (Float64.of_Z (10 ^ 16)) = "1e+16".
Proof. repeat split; vm_compute; reflexivity. Qed.

(** Fixed notation rounds the binary value: 0.25 is a tie and goes to the
    even digit, 0.35 lies below the tie. *)
Example fixed_examples :
  fmt1 (dec 25 2) = "0.2" /\ fmt1 (dec 35 2) = "0.3" /\
  fmt1 (dec 75 2) = "0.8" /\ fmt2 (dec 375 1) = "37.50" /\
  fmt2 (dec (-5) 3) = "-0.01" /\ fmt1 Float64.nan = "nan".
Proof. repeat split; vm_compute; reflexivity. Qed.

Example strftime_example : strftime_B_d_Y (at_time 3 9) = "November 03, 2026".
Proof. reflexivity. Qed.

(** The end-to-end scenario of the specification: three rows of shear 50
    over a 4 m span.  Beam length 4.0; maximum and minimum shear 50, both
    at the first row; maximum moment 100 at x = 2.0; no zero-shear row. *)
Example constant_shear_report :
  load_data (world (at_time 3 9) constant_shear) generator
  = Ok (loaded constant_shear) /\
  fmt1 (beam_length (loaded constant_shear)) = "4.0" /\
  data_table_from (loaded constant_shear) constant_shear
    (row (dec 0 0) (dec 50 0) (dec 0 0))
    (row (dec 0 0) (dec 50 0) (dec 0 0))
    (row (dec 2 0) (dec 50 0) (dec 100 0))
    "N/A".
Proof.
  split; [reflexivity|]. split; [vm_compute; reflexivity|].
  unfold data_table_from. vm_compute. reflexivity.
Qed.

(** Columns of whole numbers are int64 and print as integers where the
    program gives no format.  The uniformly loaded beam has whole
    positions and shears and the moment 37.5: the zero-shear location,
    the ticks and the limits of the shear axis are integers, the limit of
    the moment axis and the points of the charts are floats, as the rows
    of a table with a float64 column are. *)
Example uniform_load_texts :
  dtype_of (column x uniform_load) = int64 /\
  dtype_of (column Shear_force uniform_load) = int64 /\
  dtype_of (column Bending_Moment uniform_load) = float64 /\
  row_dtype uniform_load = float64 /\
  zero_shear_location uniform_load = Ok "2" /\
  xtick uniform_load = "0,1,2,3,4" /\
  (exists sfd,
     _create_sfd_diagram (loaded uniform_load) = Ok sfd /\
     occurs "xmax=4.5," sfd = true /\
     occurs "ymin=-60," sfd = true /\
     occurs "ymax=60," sfd = true /\
     occurs "xtick={0,1,2,3,4}," sfd = true /\
     occurs "(1.0, 25.0)" sfd = true /\
     occurs "(3.0, -25.0)" sfd = true /\
     occurs "(3.0, 0)" sfd = true) /\
  (exists bmd,
     _create_bmd_diagram (loaded uniform_load) = Ok bmd /\
     occurs "ymax=70.0," bmd = true /\
     occurs "(1.0, 37.5)" bmd = true).
Proof.
  repeat split; try (vm_compute; reflexivity);
    eexists; (split; [vm_compute; reflexivity|]);
    repeat split; vm_compute; reflexivity.
Qed.

(** A table of whole numbers only: its rows are ints and every
    unformatted number is an integer. *)
Example off_centre_texts :
  row_dtype off_centre = int64 /\
  xtick off_centre = "0,1,2,3,4" /\
  (exists sfd,
     _create_sfd_diagram (loaded off_centre) = Ok sfd /\
     occurs "ymin=-20," sfd = true /\
     occurs "ymax=40," sfd = true /\
     occurs "(1, 30)" sfd = true /\
     occurs "(2, -10)" sfd = true) /\
  (exists bmd,
     _create_bmd_diagram (loaded off_centre) = Ok bmd /\
     occurs "ymax=50," bmd = true /\
     occurs "(1, 30)" bmd = true).
Proof.
  repeat split; try (vm_compute; reflexivity);
    eexists; (split; [vm_compute; reflexivity|]);
    repeat split; vm_compute; reflexivity.
Qed.

(** Positions with decimals make the column float64. *)
Example zero_at_075_texts :
  dtype_of (column x zero_at_075) = float64 /\
  xtick zero_at_075 = "0.0,0.75,1.5" /\
  zero_shear_location zero_at_075 = Ok "0.75".
Proof. repeat split; vm_compute; reflexivity. Qed.

(** The limits of the shear axis are computed in the dtype of the
    column: at the ends of the int64 range they wrap around. *)
Example int64_limits_wrap :
  minus_str int64 (Float64.of_Z (- 2 ^ 63)) 10 = "9223372036854775798" /\
  plus_str int64 (Float64.of_Z (2 ^ 63 - 1024)) 2000
  = "-9223372036854774832" /\
  minus_str float64 (dec (-505) 1) 10 = "-60.5".
Proof. repeat split; vm_compute; reflexivity. Qed.

(** * Properties of the report *)

(** ** Loading *)

(** C9. For every table with at least one row (and no missing position),
    the beam length that [load_data] derives is the maximum position: it
    is the position of some row and no row has a greater one. *)
Theorem beam_length_is_max_position
  (w : World) (self : BeamReportGenerator) (df : DataFrame) :
  read_excel w (excel_path self) = Ok df ->
  df <> [] ->
  no_nan (column x df) ->
  exists self',
    load_data w self = Ok self' /\
    data self' = Some df /\
    is_maximum (beam_length self') (column x df).
Proof.
  intros Hread Hne Hnan.
  unfold load_data. rewrite Hread. cbn [bind].
  eexists. split; [reflexivity|]. split; [reflexivity|].
  cbn [beam_length].
  destruct (idxmax_first_max _ (column_nonempty x df Hne) Hnan)
    as (i & _ & Hat & Hall & _).
  split; [eapply nth_error_In; exact Hat|exact Hall].
Qed.

Lemma beam_length_is_max_position_witness :
  read_excel (world (at_time 3 9) uniform_load) (excel_path generator)
  = Ok uniform_load /\
  exists self',
    load_data (world (at_time 3 9) uniform_load) generator = Ok self' /\
    data self' = Some uniform_load /\
    is_maximum (beam_length self') (column x uniform_load).
Proof.
  split; [reflexivity|].
  apply (beam_length_is_max_position
           (world (at_time 3 9) uniform_load) generator uniform_load).
  - reflexivity.
  - discriminate.
  - vm_compute. repeat constructor.
Defined.

(** C3, as the program behaves.  A workbook that parses to zero rows
    loads without any error: the beam length is NaN, the maximum pandas
    reports for an empty column.  The run stops later, inside
    [_create_data_table], on the exception pandas raises when asked for
    the [idxmax] of the empty shear column. *)
Theorem empty_table_fails_in_data_table
  (w : World) (self : BeamReportGenerator) :
  read_excel w (excel_path self) = Ok [] ->
  exists self',
    load_data w self = Ok self' /\
    data self' = Some [] /\
    beam_length self' = Float64.nan /\
    _create_data_table self' = Err ValueError /\
    generate_report w self = Err ValueError.
Proof.
  intros Hread. unfold generate_report, load_data. rewrite Hread.
  cbn [bind]. eexists. repeat split; reflexivity.
Qed.

Lemma empty_table_fails_in_data_table_witness :
  read_excel (world (at_time 3 9) []) (excel_path generator) = Ok [] /\
  exists self',
    load_data (world (at_time 3 9) []) generator = Ok self' /\
    data self' = Some [] /\
    beam_length self' = Float64.nan /\
    _create_data_table self' = Err ValueError /\
    generate_report (world (at_time 3 9) []) generator = Err ValueError.
Proof.
  split; [reflexivity|].
  apply (empty_table_fails_in_data_table (world (at_time 3 9) []) generator).
  reflexivity.
Defined.

(** C3, as stated, fails: loading the empty table returns normally. *)
Lemma empty_table_loads :
  read_excel (world (at_time 3 9) []) (excel_path generator) = Ok [] /\
  load_data (world (at_time 3 9) []) generator = Ok (loaded []) /\
  Float64.is_nan (beam_length (loaded [])) = true /\
  forall e, load_data (world (at_time 3 9) []) generator <> Err e.
Proof.
  repeat split; try reflexivity. intros e H. discriminate H.
Qed.

(** ** The title page and the clock *)

(** C2, as the program behaves.  The title page takes its date from the
    system clock, read inside [_create_title_page]; nothing else in the
    document depends on the clock.  Two runs on the same workbook whose
    clock readings print as the same date produce the same text (or fail
    alike). *)
Theorem report_determined_by_inputs_and_date
  (w1 w2 : World) (self : BeamReportGenerator) :
  read_excel w1 (excel_path self) = read_excel w2 (excel_path self) ->
  strftime_B_d_Y (now w1) = strftime_B_d_Y (now w2) ->
  generate_report w1 self = generate_report w2 self.
Proof.
  intros Hread Hdate. unfold generate_report, load_data. rewrite Hread.
  destruct (read_excel w2 (excel_path self)) as [df|e]; [|reflexivity].
  cbn [bind]. unfold _create_title_page. rewrite Hdate. reflexivity.
Qed.

Lemma report_determined_by_inputs_and_date_witness :
  now (world (at_time 3 9) uniform_load)
  <> now (world (at_time 3 17) uniform_load) /\
  strftime_B_d_Y (now (world (at_time 3 9) uniform_load))
  = strftime_B_d_Y (now (world (at_time 3 17) uniform_load)) /\
  generate_report (world (at_time 3 9) uniform_load) generator
  = generate_report (world (at_time 3 17) uniform_load) generator.
Proof.
  split; [discriminate|]. split; [reflexivity|].
  apply (report_determined_by_inputs_and_date
           (world (at_time 3 9) uniform_load)
           (world (at_time 3 17) uniform_load) generator).
  - reflexivity.
  - reflexivity.
Defined.

(** C2, as stated, fails: the same generator on the same workbook gives
    different texts on two different days. *)
Lemma report_follows_the_clock :
  read_excel (world (at_time 3 9) uniform_load) (excel_path generator)
  = read_excel (world (at_time 4 9) uniform_load) (excel_path generator) /\
  generate_report (world (at_time 3 9) uniform_load) generator
  <> generate_report (world (at_time 4 9) uniform_load) generator.
Proof.
  split; [reflexivity|]. intros H.
  apply (f_equal (fun r => match r with
                           | Ok s => occurs "November 03, 2026" s
                           | Err _ => false
                           end)) in H.
  vm_compute in H. discriminate H.
Qed.

(** ** The data table chapter *)

(** C6. On every table with at least one row (and no missing shear or
    moment), the position printed next to the maximum shear is the
    position of the first row, in row order, whose shear is the maximum:
    that row holds the printed value, no row exceeds it and every earlier
    row is strictly below it.  Likewise for the minimum shear and for the
    maximum moment. *)
Theorem extremes_located_at_first_row
  (self : BeamReportGenerator) (df : DataFrame) :
  data self = Some df ->
  df <> [] ->
  no_nan (column Shear_force df) ->
  no_nan (column Bending_Moment df) ->
  exists i1 r1 i2 r2 i3 r3 zero_shear,
    first_max_row Shear_force df i1 r1 /\
    first_min_row Shear_force df i2 r2 /\
    first_max_row Bending_Moment df i3 r3 /\
    data_table_from self df r1 r2 r3 zero_shear.
Proof.
  intros Hdata Hne Hshear Hmoment.
  destruct (_create_data_table_ok self df Hdata Hne Hshear Hmoment)
    as (i1 & r1 & i2 & r2 & i3 & r3 & zs & H1 & H2 & H3 & _ & Hout).
  exists i1, r1, i2, r2, i3, r3, zs. auto.
Qed.

Lemma extremes_located_at_first_row_witness :
  data (loaded two_zeros) = Some two_zeros /\
  exists i1 r1 i2 r2 i3 r3 zero_shear,
    first_max_row Shear_force two_zeros i1 r1 /\
    first_min_row Shear_force two_zeros i2 r2 /\
    first_max_row Bending_Moment two_zeros i3 r3 /\
    data_table_from (loaded two_zeros) two_zeros r1 r2 r3 zero_shear.
Proof.
  split; [reflexivity|].
  apply (extremes_located_at_first_row (loaded two_zeros) two_zeros).
  - reflexivity.
  - discriminate.
  - vm_compute. repeat constructor.
  - vm_compute. repeat constructor.
Defined.

(** C4. On every table with at least one row (and no missing shear or
    moment, the positions being cells as [read_excel] delivers them): if
    some row has shear exactly 0, the zero-shear location
    printed is the position of such a row; if no row has shear exactly 0,
    the text printed in its place is the marker N/A.  The position is
    printed without a format, as a cell of the column of positions: the
    integer when that column holds whole numbers only, the shortest
    decimal that reads back as the position otherwise. *)
Theorem zero_shear_location_or_marker
  (self : BeamReportGenerator) (df : DataFrame) :
  data self = Some df ->
  df <> [] ->
  no_nan (column Shear_force df) ->
  no_nan (column Bending_Moment df) ->
  as_read (column x df) ->
  exists r1 r2 r3 zero_shear,
    data_table_from self df r1 r2 r3 zero_shear /\
    ((exists r, In r df /\
                Float64.eqb (Shear_force r) (Float64.of_Z 0) = true) ->
     exists r, In r df /\
               Float64.eqb (Shear_force r) (Float64.of_Z 0) = true /\
               zero_shear = cell_str (dtype_of (column x df)) (x r)) /\
    ((forall r, In r df ->
                Float64.eqb (Shear_force r) (Float64.of_Z 0) = false) ->
     zero_shear = "N/A").
Proof.
  intros Hdata Hne Hshear Hmoment _.
  destruct (_create_data_table_ok self df Hdata Hne Hshear Hmoment)
    as (i1 & r1 & i2 & r2 & i3 & r3 & zs & _ & _ & _ & Hz & Hout).
  exists r1, r2, r3, zs. split; [exact Hout|]. split.
  - intros Hex. destruct (first_zero_exists df Hex) as (i & r & Hfirst).
    exists r. pose proof (zero_shear_location_first df i r Hfirst) as Hloc.
    destruct Hfirst as (Hat & Hzero & _).
    split; [eapply nth_error_In; exact Hat|]. split; [exact Hzero|].
    congruence.
  - intros Hnone. pose proof (zero_shear_location_none df Hnone) as Hloc.
    congruence.
Qed.

Lemma zero_shear_location_or_marker_witness :
  (exists r, In r uniform_load /\
             Float64.eqb (Shear_force r) (Float64.of_Z 0) = true) /\
  cell_str (dtype_of (column x uniform_load)) (dec 2 0) = "2" /\
  exists r1 r2 r3 zero_shear,
    data_table_from (loaded uniform_load) uniform_load r1 r2 r3 zero_shear /\
    ((exists r, In r uniform_load /\
                Float64.eqb (Shear_force r) (Float64.of_Z 0) = true) ->
     exists r, In r uniform_load /\
               Float64.eqb (Shear_force r) (Float64.of_Z 0) = true /\
               zero_shear = cell_str (dtype_of (column x uniform_load)) (x r))
    /\
    ((forall r, In r uniform_load ->
                Float64.eqb (Shear_force r) (Float64.of_Z 0) = false) ->
     zero_shear = "N/A").
Proof.
  split.
  - exists (row (dec 2 0) (dec 0 0) (dec 50 0)).
    split; [right; right; left; reflexivity|reflexivity].
  - split; [vm_compute; reflexivity|].
    apply (zero_shear_location_or_marker (loaded uniform_load) uniform_load).
    + reflexivity.
    + discriminate.
    + vm_compute. repeat constructor.
    + vm_compute. repeat constructor.
    + vm_compute. reflexivity.
Defined.

(** C10. When rows have shear exactly 0, one or several, the zero-shear
    location printed is the position of the first of them in row order,
    printed without a format as a cell of the column of positions: the
    integer when that column holds whole numbers only, the shortest
    decimal that reads back as the position otherwise. *)
Theorem zero_shear_first_row_wins
  (self : BeamReportGenerator) (df : DataFrame) (i : nat) (r : Row) :
  data self = Some df ->
  no_nan (column Shear_force df) ->
  no_nan (column Bending_Moment df) ->
  as_read (column x df) ->
  first_zero_shear_row df i r ->
  exists r1 r2 r3,
    data_table_from self df r1 r2 r3
      (cell_str (dtype_of (column x df)) (x r)).
Proof.
  intros Hdata Hshear Hmoment _ Hfirst.
  assert (Hne : df <> []).
  { destruct Hfirst as (Hat & _). intros ->. destruct i; discriminate. }
  destruct (_create_data_table_ok self df Hdata Hne Hshear Hmoment)
    as (i1 & r1 & i2 & r2 & i3 & r3 & zs & _ & _ & _ & Hz & Hout).
  exists r1, r2, r3.
  rewrite (zero_shear_location_first df i r Hfirst) in Hz.
  injection Hz as <-. exact Hout.
Qed.

Lemma zero_shear_first_row_wins_witness :
  first_zero_shear_row two_zeros 1 (row (dec 1 0) (dec 0 0) (dec 20 0)) /\
  Float64.eqb (Shear_force (row (dec 2 0) (dec 0 0) (dec 20 0)))
              (Float64.of_Z 0) = true /\
  cell_str (dtype_of (column x two_zeros))
           (x (row (dec 1 0) (dec 0 0) (dec 20 0))) = "1" /\
  exists r1 r2 r3,
    data_table_from (loaded two_zeros) two_zeros r1 r2 r3
      (cell_str (dtype_of (column x two_zeros))
                (x (row (dec 1 0) (dec 0 0) (dec 20 0)))).
Proof.
  assert (Hfirst : first_zero_shear_row two_zeros 1
                     (row (dec 1 0) (dec 0 0) (dec 20 0))).
  { split; [reflexivity|]. split; [reflexivity|].
    intros [|j] r' Hj Hnth; [|lia]. injection Hnth as <-. reflexivity. }
  split; [exact Hfirst|]. split; [reflexivity|].
  split; [vm_compute; reflexivity|].
  apply (zero_shear_first_row_wins (loaded two_zeros) two_zeros 1
           (row (dec 1 0) (dec 0 0) (dec 20 0))).
  - reflexivity.
  - vm_compute. repeat constructor.
  - vm_compute. repeat constructor.
  - vm_compute. reflexivity.
  - exact Hfirst.
Defined.

(** C7. The data table holds one line per row of the input, in row
    order and nothing in between: after the heading come the lines of the
    rows, each made of the position with 1 decimal and the shear and the
    moment with 2 decimals, and then the closing text.  The loop builds
    this for every table; the section is returned whenever the table has
    at least one row, all cells being real numbers. *)
Theorem data_table_lists_rows_in_order (df : DataFrame) :
  table_rows df
  = Tex.data_table_0 ++
    flat (map (fun r => formatted_row (fmt1 (x r)) (fmt2 (Shear_force r))
                                      (fmt2 (Bending_Moment r))) df) /\
  (Forall finite_row df ->
   Forall (fun r => has_decimals 1 (fmt1 (x r)) /\
                    has_decimals 2 (fmt2 (Shear_force r)) /\
                    has_decimals 2 (fmt2 (Bending_Moment r))) df) /\
  forall self : BeamReportGenerator,
    data self = Some df -> df <> [] -> Forall finite_row df ->
    exists closing,
      _create_data_table self
      = Ok (Tex.data_table_0 ++
            flat (map (fun r => formatted_row (fmt1 (x r))
                                  (fmt2 (Shear_force r))
                                  (fmt2 (Bending_Moment r))) df) ++
            closing) /\
      prefix Tex.data_table_1 closing = true.
Proof.
  assert (Hrows : table_rows df
    = Tex.data_table_0 ++
      flat (map (fun r => formatted_row (fmt1 (x r)) (fmt2 (Shear_force r))
                                        (fmt2 (Bending_Moment r))) df)).
  { apply table_rows_flat. }
  split; [exact Hrows|]. split.
  - intros Hfin. eapply Forall_impl; [|exact Hfin].
    intros r (Hx & Hs & Hm).
    split; [apply fmt1_has_decimals; exact Hx|].
    split; apply fmt2_has_decimals; assumption.
  - intros self Hdata Hne Hfin.
    destruct (finite_rows_no_nan df Hfin) as (_ & Hshear & Hmoment).
    destruct (_create_data_table_ok self df Hdata Hne Hshear Hmoment)
      as (i1 & r1 & i2 & r2 & i3 & r3 & zs & _ & _ & _ & _ & Hout).
    eexists. split.
    + rewrite Hout, Hrows, append_assoc. reflexivity.
    + unfold interpretation. apply prefix_append.
Qed.

Lemma data_table_lists_rows_in_order_witness :
  Forall finite_row uniform_load /\
  exists closing,
      _create_data_table (loaded uniform_load)
      = Ok (Tex.data_table_0 ++
            flat (map (fun r => formatted_row (fmt1 (x r))
                                  (fmt2 (Shear_force r))
                                  (fmt2 (Bending_Moment r))) uniform_load) ++
            closing) /\
      prefix Tex.data_table_1 closing = true.
Proof.
  assert (Hfin : Forall finite_row uniform_load).
  { repeat constructor. }
  split; [exact Hfin|].
  apply (proj2 (proj2 (data_table_lists_rows_in_order uniform_load))
           (loaded uniform_load)).
  - reflexivity.
  - discriminate.
  - exact Hfin.
Defined.

(** ** The shear chart *)

(** C8. The shear chart is drawn from two series over the positions of
    the table, in row order: the first holds (position, shear) where
    shear >= 0 and (position, 0) elsewhere, the second holds
    (position, shear) where shear < 0 and (position, 0) elsewhere.  On
    every table (with no missing shear, the cells being as [read_excel]
    delivers them) the loop of [_create_sfd_diagram] builds exactly the
    text of these two series, one line [(position, ordinate)] per point,
    and the section consists of a heading that ends by opening the
    coordinates of the first plot, the first series, the text between the
    two plots, the second series and a closing text.  The numbers of a
    point are printed without a format: as integers when the three
    columns hold whole numbers only, by their shortest decimals
    otherwise. *)
Theorem shear_chart_two_series
  (self : BeamReportGenerator) (df : DataFrame) :
  data self = Some df ->
  no_nan (column Shear_force df) ->
  table_as_read df ->
  map fst (spec_positive_series df) = column x df /\
  map fst (spec_negative_series df) = column x df /\
  sfd_coords df = (series_text (row_dtype df) (spec_positive_series df),
                   series_text (row_dtype df) (spec_negative_series df)) /\
  exists head tail,
    _create_sfd_diagram self
    = Ok (head ++ series_text (row_dtype df) (spec_positive_series df)
          ++ Tex.sfd_5
          ++ series_text (row_dtype df) (spec_negative_series df)
          ++ tail) /\
    ends_with ("] coordinates {" ++ newline) head /\
    prefix "        };" tail = true.
Proof.
  intros Hdata Hnan _.
  split; [unfold spec_positive_series; rewrite map_map; reflexivity|].
  split; [unfold spec_negative_series; rewrite map_map; reflexivity|].
  split; [apply sfd_coords_series; exact Hnan|].
  unfold _create_sfd_diagram, iterrows. rewrite Hdata. cbn [bind].
  rewrite (sfd_coords_series df Hnan). cbv iota beta.
  destruct sfd_4_end as [before Hend].
  exists (Tex.sfd_0 ++ str (Float64.add (beam_length self) Float64.half)
          ++ Tex.sfd_1
          ++ minus_str (dtype_of (column Shear_force df))
                       (Pandas.min (column Shear_force df)) 10
          ++ Tex.sfd_2
          ++ plus_str (dtype_of (column Shear_force df))
                      (Pandas.max (column Shear_force df)) 10
          ++ Tex.sfd_3 ++ xtick df ++ Tex.sfd_4).
  exists (Tex.sfd_6 ++ str (Float64.add (beam_length self) Float64.half)
          ++ Tex.sfd_7).
  split; [rewrite !append_assoc; reflexivity|]. split.
  - rewrite Hend. unfold ends_with. eexists.
    rewrite <- !append_assoc. reflexivity.
  - reflexivity.
Qed.

Lemma shear_chart_two_series_witness :
  no_nan (column Shear_force off_centre) /\
  row_dtype off_centre = int64 /\
  series_text int64 (spec_positive_series off_centre)
  = "            (0, 10)" ++ newline ++ "            (1, 30)" ++ newline
    ++ "            (2, 0)" ++ newline ++ "            (3, 0)" ++ newline
    ++ "            (4, 0)" ++ newline /\
  series_text int64 (spec_negative_series off_centre)
  = "            (0, 0)" ++ newline ++ "            (1, 0)" ++ newline
    ++ "            (2, -10)" ++ newline ++ "            (3, -10)" ++ newline
    ++ "            (4, -5)" ++ newline /\
  map fst (spec_positive_series off_centre) = column x off_centre /\
  map fst (spec_negative_series off_centre) = column x off_centre /\
  sfd_coords off_centre
  = (series_text (row_dtype off_centre) (spec_positive_series off_centre),
     series_text (row_dtype off_centre) (spec_negative_series off_centre)) /\
  exists head tail,
    _create_sfd_diagram (loaded off_centre)
    = Ok (head
          ++ series_text (row_dtype off_centre)
               (spec_positive_series off_centre)
          ++ Tex.sfd_5
          ++ series_text (row_dtype off_centre)
               (spec_negative_series off_centre)
          ++ tail) /\
    ends_with ("] coordinates {" ++ newline) head /\
    prefix "        };" tail = true.
Proof.
  assert (Hnan : no_nan (column Shear_force off_centre)).
  { vm_compute. repeat constructor. }
  split; [exact Hnan|].
  split; [vm_compute; reflexivity|].
  split; [vm_compute; reflexivity|].
  split; [vm_compute; reflexivity|].
  apply (shear_chart_two_series (loaded off_centre) off_centre).
  - reflexivity.
  - exact Hnan.
  - repeat split; vm_compute; reflexivity.
Defined.

(** ** The summary table and the rendering of the zero-shear location *)

(** C1, at a table whose extremes are away from the ends and the middle.
    The summary table of the conclusion prints the maximum shear with the
    location 0.0, the minimum shear with the beam length and the maximum
    moment with half the beam length, whatever the rows are: here no row
    holding the printed value has the printed position.  The data table
    chapter, for the same table, prints the positions of the rows that
    hold the extremes. *)
Theorem conclusion_locations_are_fixed :
  exists conclusion table,
    _create_conclusion (loaded off_centre) = Ok conclusion /\
    _create_data_table (loaded off_centre) = Ok table /\
    (occurs "Maximum Positive Shear & 30.00 kN & x = 0.0 m" conclusion = true /\
     holds_at Shear_force (Pandas.max (column Shear_force off_centre))
              "0.0" off_centre = false /\
     occurs "Maximum Positive Shear Force:} 30.00 kN (at x = 1.0 m)" table
     = true) /\
    (occurs "Maximum Negative Shear & -10.00 kN & x = 4.0 m" conclusion = true /\
     holds_at Shear_force (Pandas.min (column Shear_force off_centre))
              "4.0" off_centre = false /\
     occurs "Maximum Negative Shear Force:} -10.00 kN (at x = 2.0 m)" table
     = true) /\
    (occurs "Maximum Bending Moment & 30.00 kN$\cdot$m & x = 2.0 m" conclusion
     = true /\
     holds_at Bending_Moment (Pandas.max (column Bending_Moment off_centre))
              "2.0" off_centre = false /\
     occurs "Maximum Bending Moment:} 30.00 kN$\cdot$m (at x = 1.0 m)" table
     = true).
Proof.
  eexists. eexists.
  split; [vm_compute; reflexivity|].
  split; [vm_compute; reflexivity|].
  repeat split; vm_compute; reflexivity.
Qed.

Lemma not_one_decimal_075 : ~ has_decimals 1 "0.75".
Proof.
  intros (sign & whole & frac & Heq & Hsign & Hne & Hw & Hf & Hlen).
  destruct Hsign as [-> | ->]; [|discriminate Heq].
  destruct whole as [|c whole]; [congruence|].
  cbn [append] in Heq. injection Heq as <- Heq.
  destruct whole as [|c whole].
  - cbn [append] in Heq. injection Heq as <-. discriminate Hlen.
  - cbn [append] in Heq. injection Heq as <- _. discriminate Hw.
Qed.

(** C5, at a table whose shear vanishes at x = 0.75.  The positions of
    the extremes are printed with one decimal, but the zero-shear
    location of the same list is printed by the default rendering of the
    cell, here 0.75, where one decimal would give 0.8. *)
Theorem zero_shear_location_keeps_all_digits :
  first_zero_shear_row zero_at_075 1 (row (dec 75 2) (dec 0 0) (dec 30 0)) /\
  zero_shear_location zero_at_075 = Ok "0.75" /\
  fmt1 (dec 75 2) = "0.8" /\
  ~ has_decimals 1 "0.75" /\
  data_table_from (loaded zero_at_075) zero_at_075
    (row (dec 0 0) (dec 50 0) (dec 0 0))
    (row (dec 15 1) (dec (-50) 0) (dec 0 0))
    (row (dec 75 2) (dec 0 0) (dec 30 0))
    "0.75" /\
  exists table,
    _create_data_table (loaded zero_at_075) = Ok table /\
    occurs "\item \textbf{Zero Shear Location:} x = 0.75 m (point of maximum moment)"
           table = true.
Proof.
  split.
  { split; [reflexivity|]. split; [reflexivity|].
    intros [|j] r' Hj Hnth; [|lia]. injection Hnth as <-. reflexivity. }
  split; [vm_compute; reflexivity|].
  split; [vm_compute; reflexivity|].
  split; [exact not_one_decimal_075|].
  split; [unfold data_table_from; vm_compute; reflexivity|].
  eexists. split; vm_compute; reflexivity.
Qed.

(** * Further properties of the program *)

(** ** Columns with missing cells *)

Lemma fill_neg_inf_no_nan (s : Series) : no_nan (map fill_neg_inf s).
Proof.
  unfold no_nan. rewrite Forall_map. apply Forall_forall. intros v _.
  unfold fill_neg_inf. destruct (Float64.is_nan v) eqn:E; [reflexivity|exact E].
Qed.

Lemma fill_pos_inf_no_nan (s : Series) : no_nan (map fill_pos_inf s).
Proof.
  unfold no_nan. rewrite Forall_map. apply Forall_forall. intros v _.
  unfold fill_pos_inf. destruct (Float64.is_nan v) eqn:E; [reflexivity|exact E].
Qed.

Lemma some_value_in_iff (s : Series) :
  some_value_in s <-> forallb Float64.is_nan s = false.
Proof.
  unfold some_value_in. split.
  - intros (v & Hin & Hv).
    destruct (forallb Float64.is_nan s) eqn:E; [|reflexivity].
    rewrite forallb_forall in E. rewrite (E v Hin) in Hv. discriminate.
  - induction s as [|v s IH]; [discriminate|]. simpl.
    destruct (Float64.is_nan v) eqn:Hv.
    + intros H. destruct (IH H) as (u & Hin & Hu). exists u. auto.
    + intros _. exists v. auto.
Qed.

Lemma idxmax_in_bounds (s : Series) :
  forallb Float64.is_nan s = false ->
  exists i, idxmax s = Ok i /\ (i < List.length s)%nat /\
            first_max (map fill_neg_inf s) i (Pandas.max s).
Proof.
  intros Hsome. unfold idxmax, Pandas.max. rewrite Hsome.
  assert (Hne : map fill_neg_inf s <> []).
  { destruct s; [discriminate Hsome|discriminate]. }
  destruct (np_arg_first Float64.leb greater leb_refl ltb_false_leb ltb_leb
              leb_ltb_trans _ Hne (fill_neg_inf_no_nan s))
    as (i & Hi & Hfirst).
  exists i. split; [exact Hi|]. split; [|exact Hfirst].
  destruct Hfirst as (Hat & _).
  rewrite <- (length_map fill_neg_inf s). apply nth_error_Some.
  rewrite Hat. discriminate.
Qed.

(** ** The two steps of the text part *)

Lemma generate_report_split (w : World) (self : BeamReportGenerator) :
  generate_report w self
  = (self' <- load_data w self ;; latex_content w self').
Proof. reflexivity. Qed.

Lemma load_data_loaded (w : World) (self self' : BeamReportGenerator) :
  load_data w self = Ok self' ->
  exists df, read_excel w (excel_path self) = Ok df /\
             data self' = Some df /\
             excel_path self' = excel_path self /\
             output_name self' = output_name self /\
             beam_image_path self' = beam_image_path self /\
             beam_length self' = Pandas.max (column x df).
Proof.
  unfold load_data. destruct (read_excel w (excel_path self)) as [df|e];
    cbn [bind]; [|discriminate].
  intros [= <-]. exists df. repeat split; reflexivity.
Qed.

(** ** The moment chart *)

Lemma bmd_3_end :
  exists before, Tex.bmd_3 = before ++ "] coordinates {" ++ newline.
Proof.
  exists (substring 0 (String.length Tex.bmd_3 - 16) Tex.bmd_3).
  vm_compute. reflexivity.
Qed.

(** X3. Once a table of the three columns is loaded, also one without
    rows or with missing cells, the series of the moment chart has one
    line [(position, moment)] per row, in row order and nothing in
    between, after a heading that ends by opening the coordinates of the
    plot.  Position and moment are printed without a format: as integers
    when the three columns hold whole numbers only, by their shortest
    decimals otherwise. *)
Theorem moment_chart_one_point_per_row
  (self : BeamReportGenerator) (df : DataFrame) :
  data self = Some df ->
  table_as_read df ->
  exists head tail,
    _create_bmd_diagram self
    = Ok (head
          ++ series_text (row_dtype df)
               (map (fun r => (x r, Cell (Bending_Moment r))) df)
          ++ tail) /\
    ends_with ("] coordinates {" ++ newline) head /\
    prefix "        };" tail = true.
Proof.
  intros Hdata _. unfold _create_bmd_diagram, iterrows. rewrite Hdata.
  cbn [bind]. unfold bmd_coords. rewrite fold_left_append.
  destruct bmd_3_end as [before Hend].
  exists (Tex.bmd_0 ++ str (Float64.add (beam_length self) Float64.half)
          ++ Tex.bmd_1
          ++ plus_str (dtype_of (column Bending_Moment df))
                      (Pandas.max (column Bending_Moment df)) 20
          ++ Tex.bmd_2 ++ xtick df ++ Tex.bmd_3).
  exists (Tex.bmd_4 ++ str (Float64.add (beam_length self) Float64.half)
          ++ Tex.bmd_5
          ++ fmt1 (Float64.div (beam_length self) (Float64.of_Z 2))
          ++ Tex.bmd_6
          ++ fmt2 (Pandas.max (column Bending_Moment df)) ++ Tex.bmd_7).
  split; [|split].
  - match goal with
    | |- context [EmptyString ++ ?a] => change (EmptyString ++ a) with a
    end.
    unfold series_text. rewrite map_map. rewrite !append_assoc. reflexivity.
  - rewrite Hend. unfold ends_with. eexists.
    rewrite <- !append_assoc. reflexivity.
  - reflexivity.
Qed.

Lemma moment_chart_one_point_per_row_witness :
  row_dtype with_gaps = float64 /\
  series_text float64
    (map (fun r => (x r, Cell (Bending_Moment r))) with_gaps)
  = "            (0.0, 0.0)" ++ newline ++ "            (2.0, 50.0)"
    ++ newline ++ "            (nan, 0.0)" ++ newline /\
  exists head tail,
    _create_bmd_diagram (loaded with_gaps)
    = Ok (head
          ++ series_text (row_dtype with_gaps)
               (map (fun r => (x r, Cell (Bending_Moment r))) with_gaps)
          ++ tail) /\
    ends_with ("] coordinates {" ++ newline) head /\
    prefix "        };" tail = true.
Proof.
  split; [vm_compute; reflexivity|].
  split; [vm_compute; reflexivity|].
  apply (moment_chart_one_point_per_row (loaded with_gaps) with_gaps).
  - reflexivity.
  - repeat split; vm_compute; reflexivity.
Defined.

(** ** The image path *)

Lemma get_replace_char (old new : ascii) (s : string) :
  forall i, get i (replace_char old new s)
            = option_map (fun c => if Ascii.eqb c old then new else c)
                         (get i s).
Proof.
  induction s as [|c s IH]; intros i; [reflexivity|].
  destruct i as [|i]; [reflexivity|]. cbn [replace_char get]. apply IH.
Qed.

Lemma length_replace_char (old new : ascii) (s : string) :
  String.length (replace_char old new s) = String.length s.
Proof.
  induction s as [|c s IH]; [reflexivity|]. cbn [replace_char String.length].
  rewrite IH. reflexivity.
Qed.

(** X4. The image path that [_create_introduction] puts into
    the figure has the length of the path given to the generator, holds
    a slash wherever that path holds a backslash and the same character
    everywhere else; so it never contains a backslash, and no other
    character of the path is changed or escaped. *)
Theorem introduction_image_path (self : BeamReportGenerator) :
  exists image_path,
    _create_introduction self
    = Tex.introduction_0 ++ image_path ++ Tex.introduction_1
        ++ fmt1 (beam_length self) ++ Tex.introduction_2 /\
    String.length image_path = String.length (beam_image_path self) /\
    (forall i, get i image_path <> Some backslash) /\
    (forall i, get i (beam_image_path self) = Some backslash ->
               get i image_path = Some "/"%char) /\
    (forall i c, get i (beam_image_path self) = Some c -> c <> backslash ->
                 get i image_path = Some c).
Proof.
  exists (replace_char backslash "/" (beam_image_path self)).
  split; [reflexivity|]. split; [apply length_replace_char|].
  split; [|split].
  - intros i. rewrite get_replace_char.
    destruct (get i (beam_image_path self)) as [c|]; [|discriminate].
    cbn [option_map]. destruct (Ascii.eqb c backslash) eqn:E.
    + discriminate.
    + intros [= ->]. rewrite Ascii.eqb_refl in E. discriminate.
  - intros i H. rewrite get_replace_char, H. reflexivity.
  - intros i c H Hc. rewrite get_replace_char, H. cbn [option_map].
    destruct (Ascii.eqb c backslash) eqn:E; [|reflexivity].
    apply Ascii.eqb_eq in E. contradiction.
Qed.

Lemma introduction_image_path_witness :
  get 2 (beam_image_path windows_generator) = Some backslash /\
  exists image_path,
    _create_introduction windows_generator
    = Tex.introduction_0 ++ image_path ++ Tex.introduction_1
        ++ fmt1 (beam_length windows_generator) ++ Tex.introduction_2 /\
    String.length image_path = 16%nat /\
    get 2 image_path = Some "/"%char /\
    get 3 image_path = Some "w"%char.
Proof.
  split; [reflexivity|].
  destruct (introduction_image_path windows_generator)
    as (image_path & Htext & Hlen & _ & Hslash & Hsame).
  exists image_path. split; [exact Htext|]. split; [exact Hlen|].
  split; [apply Hslash; reflexivity|].
  apply Hsame; [reflexivity|discriminate].
Defined.

(** ** The shear chart and missing cells *)

Lemma append_cancel_l (a b c : string) : a ++ b = a ++ c -> b = c.
Proof.
  induction a as [|ch a IH]; [auto|]. cbn [append]. intros H.
  injection H as H. apply IH. exact H.
Qed.

(** A column with a missing cell is float64, and so are then the rows. *)
Lemma dtype_of_int64 (s : Series) : dtype_of s = int64 -> no_nan s.
Proof.
  destruct s as [|v s]; [discriminate|]. unfold dtype_of.
  destruct (forallb int64_cell (v :: s)) eqn:E; [|discriminate].
  intros _. rewrite forallb_forall in E. apply Forall_forall.
  intros u Hin. specialize (E u Hin). destruct u; try discriminate E;
    reflexivity.
Qed.

Lemma row_dtype_int64 (df : DataFrame) :
  row_dtype df = int64 -> no_nan (column Shear_force df).
Proof.
  intros H. apply dtype_of_int64. unfold row_dtype in H.
  destruct (dtype_of (column x df)); [|discriminate H].
  destruct (dtype_of (column Shear_force df)); [reflexivity|discriminate H].
Qed.

Lemma sfd_step_lines (dt : dtype) (pos neg : string) (r : Row) :
  sfd_step dt (pos, neg) r
  = (pos ++ sfd_positive_line dt r, neg ++ sfd_negative_line dt r).
Proof.
  unfold sfd_positive_line, sfd_negative_line, sfd_step.
  destruct (Float64.geb (Shear_force r) (Float64.of_Z 0)); reflexivity.
Qed.

Lemma sfd_fold_lines (dt : dtype) (df : DataFrame) :
  forall pos neg : string,
    fold_left (sfd_step dt) df (pos, neg)
    = (pos ++ flat (map (sfd_positive_line dt) df),
       neg ++ flat (map (sfd_negative_line dt) df)).
Proof.
  induction df as [|r df IH]; intros pos neg.
  - cbn [fold_left map flat fold_right]. rewrite !append_empty_r. reflexivity.
  - cbn [fold_left]. rewrite sfd_step_lines, IH.
    cbn [map flat fold_right]. rewrite !append_assoc. reflexivity.
Qed.

Lemma sfd_positive_line_spec (dt : dtype) (r : Row) :
  sfd_positive_line dt r
  = point_text dt (x r, if Float64.leb (Float64.of_Z 0) (Shear_force r)
                        then Cell (Shear_force r) else Zero).
Proof.
  unfold sfd_positive_line, sfd_step, point_text. cbn [fst snd].
  unfold Float64.geb.
  change (SFleb (Float64.of_Z 0) (Shear_force r))
    with (Float64.leb (Float64.of_Z 0) (Shear_force r)).
  destruct (Float64.leb (Float64.of_Z 0) (Shear_force r)); reflexivity.
Qed.

Lemma sfd_negative_line_spec (dt : dtype) (r : Row) :
  Float64.is_nan (Shear_force r) = false ->
  sfd_negative_line dt r
  = point_text dt (x r, if Float64.ltb (Shear_force r) (Float64.of_Z 0)
                        then Cell (Shear_force r) else Zero).
Proof.
  intros Hnan. unfold sfd_negative_line.
  rewrite (sfd_step_points dt EmptyString EmptyString r Hnan).
  unfold series_text, spec_negative_series.
  cbn [snd map flat fold_right]. rewrite append_empty_r. reflexivity.
Qed.

Lemma sfd_step_nan (r : Row) :
  Float64.is_nan (Shear_force r) = true ->
  sfd_step float64 (EmptyString, EmptyString) r
  = ("            (" ++ str (x r) ++ ", 0)" ++ newline,
     "            (" ++ str (x r) ++ ", nan)" ++ newline).
Proof.
  intros Hnan. destruct r as [xv sv mv]. cbn [Shear_force] in Hnan.
  destruct sv; try discriminate Hnan. reflexivity.
Qed.

Lemma negative_point_nan (r : Row) :
  Float64.is_nan (Shear_force r) = true ->
  point_text float64
    (x r, if Float64.ltb (Shear_force r) (Float64.of_Z 0)
          then Cell (Shear_force r) else Zero)
  = "            (" ++ str (x r) ++ ", 0)" ++ newline.
Proof.
  intros Hnan. destruct r as [xv sv mv]. cbn [Shear_force] in Hnan.
  destruct sv; try discriminate Hnan. reflexivity.
Qed.

Lemma nan_line_differs (number a b : string) :
  ("            (" ++ number ++ ", nan)" ++ newline) ++ a
  <> ("            (" ++ number ++ ", 0)" ++ newline) ++ b.
Proof.
  rewrite !append_assoc. intros H.
  apply append_cancel_l in H. apply append_cancel_l in H.
  discriminate H.
Qed.

Lemma negative_series_agree (df : DataFrame) :
  flat (map (sfd_negative_line float64) df)
  = series_text float64 (spec_negative_series df) ->
  no_nan (column Shear_force df).
Proof.
  induction df as [|r df IH]; intros H; [constructor|].
  unfold series_text, spec_negative_series in H.
  cbn [map flat fold_right] in H.
  fold (spec_negative_series df) in H.
  fold (series_text float64 (spec_negative_series df)) in H.
  destruct (Float64.is_nan (Shear_force r)) eqn:Hnan.
  - exfalso. rewrite (negative_point_nan r Hnan) in H.
    unfold sfd_negative_line in H. rewrite (sfd_step_nan r Hnan) in H.
    cbn [snd] in H. exact (nan_line_differs _ _ _ H).
  - rewrite (sfd_negative_line_spec float64 r Hnan) in H.
    apply append_cancel_l in H.
    cbn [column map]. constructor; [exact Hnan|]. apply IH. exact H.
Qed.

Lemma nan_row_dtype (df : DataFrame) (r : Row) :
  In r df -> Float64.is_nan (Shear_force r) = true ->
  row_dtype df = float64.
Proof.
  intros Hin Hnan. destruct (row_dtype df) eqn:E; [|reflexivity].
  pose proof (row_dtype_int64 df E) as Hno. unfold no_nan in Hno.
  rewrite Forall_forall in Hno.
  rewrite (Hno (Shear_force r)) in Hnan; [discriminate Hnan|].
  unfold column. apply in_map. exact Hin.
Qed.

(** X5. The first series of the shear chart is, for every table of the
    three columns, the series the specification describes.  The second
    one is that series exactly when no shear is missing: the loop sends
    every row that fails the test [shear >= 0] to the second series, so a
    row whose shear is missing is drawn there with the ordinate nan
    instead of 0, and in the first series with the ordinate 0. *)
Theorem shear_chart_and_missing_shear (df : DataFrame) :
  table_as_read df ->
  fst (sfd_coords df)
  = series_text (row_dtype df) (spec_positive_series df) /\
  (snd (sfd_coords df)
   = series_text (row_dtype df) (spec_negative_series df)
   <-> no_nan (column Shear_force df)) /\
  (forall r, In r df -> Float64.is_nan (Shear_force r) = true ->
             sfd_step (row_dtype df) (EmptyString, EmptyString) r
             = ("            (" ++ str (x r) ++ ", 0)" ++ newline,
                "            (" ++ str (x r) ++ ", nan)" ++ newline)).
Proof.
  intros _. split; [|split].
  - unfold sfd_coords. rewrite sfd_fold_lines. cbn [fst].
    change (EmptyString ++ flat (map (sfd_positive_line (row_dtype df)) df))
      with (flat (map (sfd_positive_line (row_dtype df)) df)).
    unfold series_text, spec_positive_series. rewrite map_map.
    f_equal. apply map_ext. intros r. apply sfd_positive_line_spec.
  - split.
    + intros H. destruct (row_dtype df) eqn:E;
        [apply row_dtype_int64; exact E|].
      apply negative_series_agree.
      unfold sfd_coords in H. rewrite E, sfd_fold_lines in H.
      cbn [snd] in H. exact H.
    + intros Hnan. rewrite (sfd_coords_series df Hnan). reflexivity.
  - intros r Hin Hnan. rewrite (nan_row_dtype df r Hin Hnan).
    apply sfd_step_nan. exact Hnan.
Qed.

Lemma shear_chart_and_missing_shear_witness :
  ~ no_nan (column Shear_force whole_with_gap) /\
  row_dtype whole_with_gap = float64 /\
  sfd_coords whole_with_gap
  = ("            (0.0, 50.0)" ++ newline ++ "            (2.0, 0)"
     ++ newline ++ "            (4.0, 0)" ++ newline,
     "            (0.0, 0)" ++ newline ++ "            (2.0, nan)"
     ++ newline ++ "            (4.0, -50.0)" ++ newline) /\
  snd (sfd_coords whole_with_gap)
  <> series_text (row_dtype whole_with_gap)
       (spec_negative_series whole_with_gap).
Proof.
  assert (Hgap : ~ no_nan (column Shear_force whole_with_gap)).
  { intros H. vm_compute in H. inversion H as [|? ? _ H1].
    inversion H1 as [|? ? Hbad _]. discriminate Hbad. }
  split; [exact Hgap|].
  split; [vm_compute; reflexivity|].
  split; [vm_compute; reflexivity|].
  intros Heq. apply Hgap.
  assert (Hrange : table_as_read whole_with_gap).
  { repeat split; vm_compute; reflexivity. }
  apply (proj1 (proj1 (proj2 (shear_chart_and_missing_shear whole_with_gap
                                Hrange)))).
  exact Heq.
Defined.

(** ** The beam length and missing positions *)

Lemma leb_neg_inf (v : float) :
  Float64.leb v Float64.neg_inf = true -> v = Float64.neg_inf.
Proof.
  destruct v as [[]|[]| |[] ? ?]; cbn; intros H;
    try discriminate H; reflexivity.
Qed.

(** X6. [load_data] skips missing positions: when the column of
    positions holds at least one value, the beam length is one of its
    values, not NaN, and no value of the column exceeds it; when it holds
    none (no rows, or only missing cells), the beam length is NaN. *)
Theorem beam_length_skips_missing_positions
  (w : World) (self : BeamReportGenerator) (df : DataFrame) :
  read_excel w (excel_path self) = Ok df ->
  exists self',
    load_data w self = Ok self' /\
    (some_value_in (column x df) ->
     Float64.is_nan (beam_length self') = false /\
     In (beam_length self') (column x df) /\
     forall v, In v (column x df) -> Float64.is_nan v = false ->
               Float64.leb v (beam_length self') = true) /\
    (~ some_value_in (column x df) -> beam_length self' = Float64.nan).
Proof.
  intros Hread. unfold load_data. rewrite Hread. cbn [bind].
  eexists. split; [reflexivity|]. cbn [beam_length]. split.
  - intros Hsome. pose proof Hsome as (v0 & Hin0 & Hv0).
    apply some_value_in_iff in Hsome.
    destruct (idxmax_in_bounds _ Hsome) as (i & _ & _ & Hat & Hall & _).
    set (m := Pandas.max (column x df)) in *.
    assert (Hfilled : In m (map fill_neg_inf (column x df))).
    { eapply nth_error_In. exact Hat. }
    assert (Hle : forall v, In v (column x df) -> Float64.is_nan v = false ->
                            Float64.leb v m = true).
    { intros v Hin Hv. apply Hall.
      replace v with (fill_neg_inf v)
        by (unfold fill_neg_inf; rewrite Hv; reflexivity).
      apply in_map. exact Hin. }
    split; [|split].
    + apply (no_nan_In _ _ (fill_neg_inf_no_nan (column x df)) Hfilled).
    + apply in_map_iff in Hfilled. destruct Hfilled as (u & Hu & Hin).
      unfold fill_neg_inf in Hu. destruct (Float64.is_nan u) eqn:E.
      * pose proof (Hle v0 Hin0 Hv0) as H0. rewrite <- Hu in H0.
        apply leb_neg_inf in H0. rewrite <- Hu, <- H0. exact Hin0.
      * rewrite <- Hu. exact Hin.
    + exact Hle.
  - intros Hnone. unfold Pandas.max.
    destruct (forallb Float64.is_nan (column x df)) eqn:E; [reflexivity|].
    exfalso. apply Hnone. apply some_value_in_iff. exact E.
Qed.

Lemma beam_length_skips_missing_positions_witness :
  some_value_in (column x with_gaps) /\
  exists self',
    load_data (world (at_time 3 9) with_gaps) generator = Ok self' /\
    (some_value_in (column x with_gaps) ->
     Float64.is_nan (beam_length self') = false /\
     In (beam_length self') (column x with_gaps) /\
     forall v, In v (column x with_gaps) -> Float64.is_nan v = false ->
               Float64.leb v (beam_length self') = true) /\
    (~ some_value_in (column x with_gaps) ->
     beam_length self' = Float64.nan).
Proof.
  split.
  - exists (dec 2 0). split; [right; left; reflexivity|reflexivity].
  - apply (beam_length_skips_missing_positions
             (world (at_time 3 9) with_gaps) generator with_gaps).
    reflexivity.
Defined.

(** ** The run on a machine *)

Lemma cleanup_loop (h : IO.Host) (self : BeamReportGenerator)
  (output_dir : string) (exts : list string) :
  forall s : IO.Sys,
  exists s',
    IO.for_each exts (IO.cleanup_one h self output_dir) s = (IO.Done tt, s') /\
    IO.commands s' = IO.commands s /\
    forall p,
      IO.disk s' p
      = cleaned h (map (fun ext => IO.path_join h output_dir
                                     (output_name self ++ ext)) exts)
                (IO.disk s) p.
Proof.
  induction exts as [|ext exts IH]; intros s.
  - exists s. split; [reflexivity|]. split; [reflexivity|].
    intros p. reflexivity.
  - cbn [IO.for_each map].
    set (aux_file := IO.path_join h output_dir (output_name self ++ ext)).
    assert (Hone : exists s1,
      IO.cleanup_one h self output_dir ext s = (IO.Done tt, s1) /\
      IO.commands s1 = IO.commands s /\
      forall p, IO.disk s1 p
                = if String.eqb p aux_file && negb (IO.locked h p)
                  then None else IO.disk s p).
    { unfold IO.cleanup_one, IO.io_bind, IO.path_exists, IO.try_except,
        IO.os_remove, IO.print, IO.ret. fold aux_file.
      destruct (IO.disk s aux_file) as [text|] eqn:Hdisk.
      - rewrite Hdisk. destruct (IO.locked h aux_file) eqn:Hlock.
        + eexists. split; [reflexivity|]. split; [reflexivity|].
          intros p. cbn [IO.disk].
          destruct (String.eqb_spec p aux_file) as [->|];
            [rewrite Hlock|]; reflexivity.
        + eexists. split; [reflexivity|]. split; [reflexivity|].
          intros p. cbn [IO.disk]. unfold IO.update.
          destruct (String.eqb_spec p aux_file) as [->|];
            [rewrite Hlock|]; reflexivity.
      - exists s. split; [reflexivity|]. split; [reflexivity|].
        intros p. destruct (String.eqb_spec p aux_file) as [->|];
          [|reflexivity].
        rewrite Hdisk. destruct (IO.locked h aux_file); reflexivity. }
    destruct Hone as (s1 & Hrun & Hcmd & Hdisk).
    destruct (IH s1) as (s' & Hrest & Hcmd' & Hdisk').
    exists s'. unfold IO.io_bind. rewrite Hrun.
    split; [exact Hrest|]. split; [congruence|].
    intros p. rewrite Hdisk'. unfold cleaned. rewrite Hdisk. cbn [existsb].
    destruct (String.eqb p aux_file); destruct (IO.locked h p);
      destruct (existsb (String.eqb p) _); reflexivity.
Qed.

Lemma cleaned_outside (h : IO.Host) (targets : list string) (d : IO.Disk)
  (p : string) :
  ~ In p targets -> cleaned h targets d p = d p.
Proof.
  intros Hout. unfold cleaned.
  destruct (existsb (String.eqb p) targets) eqn:E; [|reflexivity].
  apply existsb_exists in E. destruct E as (q & Hin & Heq).
  apply String.eqb_eq in Heq. subst q. contradiction.
Qed.

Lemma cleaned_inside (h : IO.Host) (targets : list string) (d : IO.Disk)
  (p : string) :
  In p targets ->
  cleaned h targets d p = if IO.locked h p then d p else None.
Proof.
  intros Hin. unfold cleaned.
  assert (E : existsb (String.eqb p) targets = true).
  { apply existsb_exists. exists p. split; [exact Hin|apply String.eqb_refl]. }
  rewrite E. destruct (IO.locked h p); reflexivity.
Qed.

(** X7. [_cleanup_aux_files] never raises and starts no command.  Of the
    files it finds it removes those, and only those, that are named after
    the output with one of the four extensions .aux, .log, .out, .toc and
    that the system lets it remove; one that cannot be removed stays, and
    every other file, the .tex and the .pdf among them unless their paths
    coincide with an auxiliary one, is left as it was. *)
Theorem cleanup_removes_only_aux_files
  (h : IO.Host) (self : BeamReportGenerator) (output_dir : string)
  (s : IO.Sys) :
  exists s',
    IO._cleanup_aux_files h self output_dir s = (IO.Done tt, s') /\
    IO.commands s' = IO.commands s /\
    (forall p, ~ In p (aux_files h self output_dir) ->
               IO.disk s' p = IO.disk s p) /\
    (forall p, In p (aux_files h self output_dir) ->
               IO.locked h p = false -> IO.disk s' p = None) /\
    (forall p, In p (aux_files h self output_dir) ->
               IO.locked h p = true -> IO.disk s' p = IO.disk s p).
Proof.
  destruct (cleanup_loop h self output_dir IO.aux_extensions s)
    as (s' & Hrun & Hcmd & Hdisk).
  exists s'. split; [exact Hrun|]. split; [exact Hcmd|].
  fold (aux_files h self output_dir) in Hdisk.
  split; [|split].
  - intros p Hout. rewrite Hdisk. apply cleaned_outside. exact Hout.
  - intros p Hin Hlock. rewrite Hdisk, (cleaned_inside h _ _ p Hin), Hlock.
    reflexivity.
  - intros p Hin Hlock. rewrite Hdisk, (cleaned_inside h _ _ p Hin), Hlock.
    reflexivity.
Qed.

Lemma cleanup_removes_only_aux_files_witness :
  In "/work/Beam_Analysis_Report.log"
     (aux_files (sample_host uniform_load 0) sample_generator "/work") /\
  ~ In "/work/Beam_Analysis_Report.pdf"
       (aux_files (sample_host uniform_load 0) sample_generator "/work") /\
  exists s',
    IO._cleanup_aux_files (sample_host uniform_load 0) sample_generator
      "/work" sample_start = (IO.Done tt, s') /\
    IO.commands s' = IO.commands sample_start /\
    (forall p, ~ In p (aux_files (sample_host uniform_load 0)
                         sample_generator "/work") ->
               IO.disk s' p = IO.disk sample_start p) /\
    (forall p, In p (aux_files (sample_host uniform_load 0)
                       sample_generator "/work") ->
               IO.locked (sample_host uniform_load 0) p = false ->
               IO.disk s' p = None) /\
    (forall p, In p (aux_files (sample_host uniform_load 0)
                       sample_generator "/work") ->
               IO.locked (sample_host uniform_load 0) p = true ->
               IO.disk s' p = IO.disk sample_start p).
Proof.
  split; [right; left; reflexivity|].
  split.
  - intros [H|[H|[H|[H|[]]]]]; discriminate H.
  - apply (cleanup_removes_only_aux_files (sample_host uniform_load 0)
             sample_generator "/work" sample_start).
Defined.

(** X8. [main] checks its two inputs first.  When the workbook is not
    there, or the workbook is there and the image is not, it prints the
    one line that names the missing file and returns: no file is written
    or removed, pdflatex is not started and nothing is raised. *)
Theorem main_stops_on_missing_input (h : IO.Host) (s : IO.Sys) :
  (IO.disk s (IO.path_join h (IO.script_dir h) "Force Table.xlsx") = None ->
   IO.main h s
   = (IO.Done tt,
      {| IO.disk := IO.disk s;
         IO.stdout :=
           (IO.stdout s ++
            [("[ERROR] Excel file not found: "
              ++ IO.path_join h (IO.script_dir h) "Force Table.xlsx")%string])%list;
         IO.commands := IO.commands s |})) /\
  (IO.disk s (IO.path_join h (IO.script_dir h) "Force Table.xlsx") <> None ->
   IO.disk s (IO.path_join h (IO.script_dir h) "simply_supported_beam.png")
   = None ->
   IO.main h s
   = (IO.Done tt,
      {| IO.disk := IO.disk s;
         IO.stdout :=
           (IO.stdout s ++
            [("[ERROR] Beam image not found: "
              ++ IO.path_join h (IO.script_dir h)
                   "simply_supported_beam.png")%string])%list;
         IO.commands := IO.commands s |})).
Proof.
  unfold IO.main, IO.io_bind, IO.path_exists, IO.print. split.
  - intros Hx. rewrite Hx. reflexivity.
  - intros Hx Hi.
    destruct (IO.disk s (IO.path_join h (IO.script_dir h) "Force Table.xlsx"));
      [|congruence].
    cbn [negb]. rewrite Hi. reflexivity.
Qed.

Lemma main_stops_on_missing_input_witness :
  IO.disk (IO.Build_Sys (fun _ => None) [] [])
          (IO.path_join (sample_host uniform_load 0)
             (IO.script_dir (sample_host uniform_load 0)) "Force Table.xlsx")
  = None /\
  IO.main (sample_host uniform_load 0) (IO.Build_Sys (fun _ => None) [] [])
  = (IO.Done tt,
     IO.Build_Sys (fun _ => None)
       ["[ERROR] Excel file not found: /work/Force Table.xlsx"] []).
Proof.
  split; [reflexivity|].
  apply (proj1 (main_stops_on_missing_input (sample_host uniform_load 0)
                  (IO.Build_Sys (fun _ => None) [] []))).
  reflexivity.
Defined.

Lemma io_bind_done {A B : Type} (c : IO.IO A) (k : A -> IO.IO B)
  (s s' : IO.Sys) (a : A) :
  c s = (IO.Done a, s') -> IO.io_bind c k s = k a s'.
Proof. intros H. unfold IO.io_bind. rewrite H. reflexivity. Qed.

Lemma io_bind_raise {A B : Type} (c : IO.IO A) (k : A -> IO.IO B)
  (s s' : IO.Sys) (e : IO.raised) :
  c s = (IO.Raise e, s') -> IO.io_bind c k s = (IO.Raise e, s').
Proof. intros H. unfold IO.io_bind. rewrite H. reflexivity. Qed.

Lemma io_load_data_done (h : IO.Host) (self self' : BeamReportGenerator)
  (s : IO.Sys) :
  load_data (IO.env h) self = Ok self' ->
  exists s', IO.load_data h self s = (IO.Done self', s') /\ same_files s s'.
Proof.
  intros Hload. destruct (load_data_loaded _ _ _ Hload) as (df & _ & Hdata & _).
  unfold IO.load_data, IO.io_bind, IO.print, IO.lift, IO.ret, the_data.
  rewrite Hload, Hdata. eexists. split; [reflexivity|]. split; reflexivity.
Qed.

Lemma io_load_data_raise (h : IO.Host) (self : BeamReportGenerator)
  (e : exn) (s : IO.Sys) :
  load_data (IO.env h) self = Err e ->
  exists s', IO.load_data h self s = (IO.Raise (IO.Py e), s') /\
             same_files s s'.
Proof.
  intros Hload.
  unfold IO.load_data, IO.io_bind, IO.print, IO.lift.
  rewrite Hload. eexists. split; [reflexivity|]. split; reflexivity.
Qed.

Lemma quoted_append (s rest : string) :
  quoted s ++ rest
  = String "034" EmptyString ++ s ++ String "034" EmptyString ++ rest.
Proof.
  unfold quoted. cbn [append]. rewrite append_assoc. reflexivity.
Qed.

Lemma quoted_text (s : string) :
  quoted s = String "034" EmptyString ++ s ++ String "034" EmptyString.
Proof. reflexivity. Qed.

Lemma pdflatex_command_text (self : BeamReportGenerator) (dir : string) :
  IO.pdflatex_command self dir = typeset_command dir (output_name self).
Proof.
  unfold IO.pdflatex_command, typeset_command, IO.dquote.
  rewrite quoted_append, quoted_text, !append_assoc. reflexivity.
Qed.

Lemma pdflatex_run_effect (h : IO.Host) (self : BeamReportGenerator)
  (dir : string) (run : Z) (s : IO.Sys) :
  exists s',
    IO.pdflatex_run h self dir run s = (IO.Done tt, s') /\
    IO.disk s'
    = snd (IO.os_system h (IO.pdflatex_command self dir) (IO.disk s)) /\
    IO.commands s'
    = (IO.commands s ++ [IO.pdflatex_command self dir])%list.
Proof.
  unfold IO.pdflatex_run, IO.io_bind, IO.print, IO.system, IO.ret.
  cbn [IO.disk IO.commands IO.stdout].
  destruct (IO.os_system h (IO.pdflatex_command self dir) (IO.disk s))
    as [status files].
  destruct (negb (status =? 0)); eexists;
    (split; [reflexivity|]); split; reflexivity.
Qed.

Ltac print_step H :=
  erewrite io_bind_done in H; [|reflexivity]; cbv beta in H.

(** X9. A run that fails before the typesetting starts no command.
    When the workbook cannot be read, or when a section cannot be built
    (a table without a shear or a moment value), [generate_report] raises
    that exception with no file written or removed.  When the text is
    built and writing the [.tex] file fails, the failure is raised as
    well, and every file other than the [.tex] file is as it was; the
    [.tex] file itself is left as the failed write leaves it. *)
Theorem run_fails_before_typesetting
  (h : IO.Host) (self : BeamReportGenerator) (s : IO.Sys) :
  (forall e,
     generate_report (IO.env h) self = Err e ->
     exists s', IO.generate_report h self s = (IO.Raise (IO.Py e), s') /\
                same_files s s') /\
  (forall text,
     generate_report (IO.env h) self = Ok text ->
     IO.locked h (tex_path h self) = true ->
     exists s',
       IO.generate_report h self s = (IO.Raise IO.PermissionError, s') /\
       IO.commands s' = IO.commands s /\
       IO.disk s' (tex_path h self)
       = IO.failed_write h (tex_path h self) text
           (IO.disk s (tex_path h self)) /\
       forall p, p <> tex_path h self -> IO.disk s' p = IO.disk s p).
Proof.
  split.
  - intros e Hgen. rewrite generate_report_split in Hgen.
    remember (IO.generate_report h self s) as out eqn:Hout.
    unfold IO.generate_report in Hout.
    do 3 print_step Hout.
    destruct (load_data (IO.env h) self) as [self'|e'] eqn:Hload;
      cbn [bind] in Hgen.
    + match type of Hout with
      | _ = IO.io_bind _ _ ?s3 =>
          destruct (io_load_data_done h self self' s3 Hload)
            as (s4 & Hrun & Hd & Hc)
      end.
      rewrite (io_bind_done _ _ _ _ _ Hrun) in Hout.
      print_step Hout.
      erewrite io_bind_raise in Hout;
        [|unfold IO.lift; rewrite Hgen; reflexivity].
      eexists. split; [exact Hout|]. split; cbn; assumption.
    + injection Hgen as ->.
      match type of Hout with
      | _ = IO.io_bind _ _ ?s3 =>
          destruct (io_load_data_raise h self e s3 Hload)
            as (s4 & Hrun & Hd & Hc)
      end.
      rewrite (io_bind_raise _ _ _ _ _ Hrun) in Hout.
      eexists. split; [exact Hout|]. split; assumption.
  - intros text Hgen Hlock. rewrite generate_report_split in Hgen.
    remember (IO.generate_report h self s) as out eqn:Hout.
    unfold IO.generate_report in Hout.
    do 3 print_step Hout.
    destruct (load_data (IO.env h) self) as [self'|e'] eqn:Hload;
      cbn [bind] in Hgen; [|discriminate Hgen].
    destruct (load_data_loaded _ _ _ Hload)
      as (df & _ & _ & Hxp & Hon & _).
    match type of Hout with
    | _ = IO.io_bind _ _ ?s3 =>
        destruct (io_load_data_done h self self' s3 Hload)
          as (s4 & Hrun & Hd & Hc)
    end.
    rewrite (io_bind_done _ _ _ _ _ Hrun) in Hout.
    print_step Hout.
    erewrite io_bind_done in Hout;
      [|unfold IO.lift; rewrite Hgen; reflexivity].
    cbv beta zeta in Hout. print_step Hout.
    erewrite io_bind_raise in Hout;
      [|unfold IO.write_file; rewrite Hxp, Hon;
        fold (output_dir h self); fold (tex_path h self);
        rewrite Hlock; reflexivity].
    cbn [IO.disk IO.commands IO.stdout] in Hout, Hd, Hc.
    eexists. split; [exact Hout|]. cbn [IO.disk IO.commands].
    split; [exact Hc|]. unfold IO.update. rewrite Hd. split.
    + rewrite String.eqb_refl. reflexivity.
    + intros p Hp. destruct (String.eqb_spec p (tex_path h self));
        [contradiction|reflexivity].
Qed.

(** The successful path of [generate_report], step by step. *)
Lemma generate_report_run
  (h : IO.Host) (self : BeamReportGenerator) (s : IO.Sys) (text : string) :
  generate_report (IO.env h) self = Ok text ->
  IO.locked h (tex_path h self) = false ->
  exists s',
    IO.generate_report h self s = (IO.Done (pdf_path h self), s') /\
    IO.commands s'
    = (IO.commands s ++
       [typeset_command (output_dir h self) (output_name self);
        typeset_command (output_dir h self) (output_name self)])%list /\
    forall p,
      IO.disk s' p
      = cleaned h (aux_files h self (output_dir h self))
                (typeset_twice h self text (IO.disk s)) p.
Proof.
  intros Hgen Hlock. rewrite generate_report_split in Hgen.
  remember (IO.generate_report h self s) as out eqn:Hout.
  unfold IO.generate_report in Hout.
  do 3 print_step Hout.
  destruct (load_data (IO.env h) self) as [self'|e'] eqn:Hload;
    cbn [bind] in Hgen; [|discriminate Hgen].
  destruct (load_data_loaded _ _ _ Hload) as (df & _ & _ & Hxp & Hon & _).
  assert (Hcmd : IO.pdflatex_command self' (output_dir h self)
                 = typeset_command (output_dir h self) (output_name self)).
  { rewrite pdflatex_command_text, Hon. reflexivity. }
  assert (Haux : aux_files h self' (output_dir h self)
                 = aux_files h self (output_dir h self)).
  { unfold aux_files. rewrite Hon. reflexivity. }
  match type of Hout with
  | _ = IO.io_bind _ _ ?s3 =>
      destruct (io_load_data_done h self self' s3 Hload)
        as (s4 & Hrun & Hd4 & Hc4)
  end.
  rewrite (io_bind_done _ _ _ _ _ Hrun) in Hout. clear Hrun.
  print_step Hout.
  erewrite io_bind_done in Hout;
    [|unfold IO.lift; rewrite Hgen; reflexivity].
  cbv beta zeta in Hout. rewrite Hxp, Hon in Hout.
  fold (output_dir h self) in Hout. fold (tex_path h self) in Hout.
  fold (pdf_path h self) in Hout.
  print_step Hout.
  erewrite io_bind_done in Hout;
    [|unfold IO.write_file; rewrite Hlock; reflexivity].
  cbv beta in Hout. print_step Hout.
  cbn [IO.for_each] in Hout.
  match type of Hout with
  | _ = IO.io_bind (IO.io_bind (IO.pdflatex_run _ _ _ _) _) _ ?s6 =>
      destruct (pdflatex_run_effect h self' (output_dir h self) 0 s6)
        as (s7 & Hrun1 & Hd7 & Hc7);
      destruct (pdflatex_run_effect h self' (output_dir h self) 1 s7)
        as (s8 & Hrun2 & Hd8 & Hc8);
      assert (Hloop :
        IO.io_bind (IO.pdflatex_run h self' (output_dir h self) 0)
          (fun _ => IO.io_bind
                      (IO.pdflatex_run h self' (output_dir h self) 1)
                      (fun _ => IO.ret tt)) s6 = (IO.Done tt, s8))
        by (rewrite (io_bind_done _ _ _ _ _ Hrun1);
            rewrite (io_bind_done _ _ _ _ _ Hrun2); reflexivity)
  end.
  rewrite (io_bind_done _ _ _ _ _ Hloop) in Hout. clear Hloop Hrun1 Hrun2.
  erewrite io_bind_done in Hout; [|reflexivity]. cbv beta in Hout.
  assert (Hreport : exists s9,
    (if match IO.disk s8 (pdf_path h self) with
        | Some _ => true
        | None => false
        end
     then
       IO.io_bind (IO.print (IO.times "=" 60))
         (fun _ => IO.io_bind
            (IO.print ("[SUCCESS] PDF generated: " ++ pdf_path h self))
            (fun _ => IO.print (IO.times "=" 60)))
     else
       IO.print
         "[ERROR] PDF generation failed. Check the .tex file for errors.")
      s8 = (IO.Done tt, s9) /\ same_files s8 s9).
  { destruct (IO.disk s8 (pdf_path h self)); eexists;
      (split; [reflexivity|]); split; reflexivity. }
  destruct Hreport as (s9 & Hrun9 & Hd9 & Hc9).
  rewrite (io_bind_done _ _ _ _ _ Hrun9) in Hout. clear Hrun9.
  destruct (cleanup_loop h self' (output_dir h self) IO.aux_extensions s9)
    as (s10 & Hrun10 & Hc10 & Hd10).
  fold (aux_files h self' (output_dir h self)) in Hd10.
  fold (IO._cleanup_aux_files h self' (output_dir h self)) in Hrun10.
  rewrite (io_bind_done _ _ _ _ _ Hrun10) in Hout. clear Hrun10.
  unfold IO.ret in Hout.
  exists s10. split; [exact Hout|]. split.
  - rewrite Hc10, Hc9, Hc8, Hc7, Hcmd. cbn [IO.commands].
    rewrite Hc4. cbn [IO.commands]. rewrite <- app_assoc. reflexivity.
  - intros p. rewrite Hd10, Haux, Hd9, Hd8, Hd7, Hcmd. cbn [IO.disk].
    rewrite Hd4. reflexivity.
Qed.

(** X10. A run whose text is built and whose [.tex] file can be written
    always returns, and returns the path of the PDF, whatever the shell
    reports and whether or not the PDF exists in the end.  The [.tex]
    file is written with exactly that text; then [os.system] is given,
    twice, the command line
    [cd /d "<directory>" && pdflatex -interaction=nonstopmode "<name>.tex"],
    the second time on the files the first left, also when the first
    reports a failure; the files in the end are those the second left,
    minus the removable auxiliary files.  What the command line does is
    the shell's affair: [cd /d] is the syntax of the Windows shell. *)
Theorem run_typesets_twice
  (h : IO.Host) (self : BeamReportGenerator) (s : IO.Sys) (text : string) :
  generate_report (IO.env h) self = Ok text ->
  IO.locked h (tex_path h self) = false ->
  exists s',
    IO.generate_report h self s = (IO.Done (pdf_path h self), s') /\
    IO.commands s'
    = (IO.commands s ++
       [typeset_command (output_dir h self) (output_name self);
        typeset_command (output_dir h self) (output_name self)])%list /\
    forall p,
      IO.disk s' p
      = cleaned h (aux_files h self (output_dir h self))
                (typeset_twice h self text (IO.disk s)) p.
Proof. apply generate_report_run. Qed.

Lemma run_typesets_twice_witness :
  typeset_command (output_dir (broken_host uniform_load) sample_generator)
                  (output_name sample_generator)
  = "cd /d " ++ String "034" "/work" ++ String "034" " && pdflatex -interaction=nonstopmode "
    ++ String "034" "Beam_Analysis_Report.tex" ++ String "034" EmptyString /\
  exists text,
    generate_report (IO.env (broken_host uniform_load)) sample_generator
    = Ok text /\
    exists s',
      IO.generate_report (broken_host uniform_load) sample_generator
        sample_start
      = (IO.Done (pdf_path (broken_host uniform_load) sample_generator), s')
      /\
      IO.commands s'
      = (IO.commands sample_start ++
         [typeset_command
            (output_dir (broken_host uniform_load) sample_generator)
            (output_name sample_generator);
          typeset_command
            (output_dir (broken_host uniform_load) sample_generator)
            (output_name sample_generator)])%list
      /\
      forall p,
        IO.disk s' p
        = cleaned (broken_host uniform_load)
            (aux_files (broken_host uniform_load) sample_generator
               (output_dir (broken_host uniform_load) sample_generator))
            (typeset_twice (broken_host uniform_load) sample_generator text
               (IO.disk sample_start)) p.
Proof.
  split; [vm_compute; reflexivity|].
  eexists. split; [vm_compute; reflexivity|].
  apply (run_typesets_twice (broken_host uniform_load) sample_generator
           sample_start).
  - vm_compute. reflexivity.
  - reflexivity.
Defined.

Lemma run_fails_before_typesetting_witness :
  (exists s',
     IO.generate_report (broken_host []) sample_generator sample_start
     = (IO.Raise (IO.Py ValueError), s') /\
     same_files sample_start s') /\
  IO.disk sample_start "/work/Beam_Analysis_Report.tex" = None /\
  (exists s',
     IO.generate_report (locked_host uniform_load) sample_generator
       sample_start
     = (IO.Raise IO.PermissionError, s') /\
     IO.commands s' = [] /\
     IO.disk s' "/work/Beam_Analysis_Report.tex" = Some EmptyString /\
     forall p, p <> "/work/Beam_Analysis_Report.tex" ->
               IO.disk s' p = IO.disk sample_start p).
Proof.
  split.
  - apply (proj1 (run_fails_before_typesetting (broken_host [])
                    sample_generator sample_start) ValueError).
    reflexivity.
  - split; [reflexivity|].
    assert (Htext : exists text,
      generate_report (IO.env (locked_host uniform_load)) sample_generator
      = Ok text).
    { eexists. vm_compute. reflexivity. }
    destruct Htext as [text Htext].
    apply (proj2 (run_fails_before_typesetting (locked_host uniform_load)
                    sample_generator sample_start) text Htext).
    reflexivity.
Defined.

(** X11. When both inputs are there, the text is built and the [.tex]
    file can be written, [main] returns after printing, as its last two
    lines, that the report generation is complete and where the output
    file is: the path of the PDF, also when the typesetter failed and
    that file does not exist.  [main] writes, removes and starts nothing
    beyond what [generate_report] did. *)
Theorem main_announces_completion
  (h : IO.Host) (s : IO.Sys) (text : string) :
  IO.disk s (excel_path (main_generator h)) <> None ->
  IO.disk s (beam_image_path (main_generator h)) <> None ->
  generate_report (IO.env h) (main_generator h) = Ok text ->
  IO.locked h (tex_path h (main_generator h)) = false ->
  exists s1 s',
    IO.generate_report h (main_generator h) s
    = (IO.Done (pdf_path h (main_generator h)), s1) /\
    IO.main h s = (IO.Done tt, s') /\
    IO.stdout s'
    = (IO.stdout s1 ++
       [(newline ++ "[INFO] Report generation complete!")%string;
        ("[INFO] Output file: " ++ pdf_path h (main_generator h))%string])%list
    /\
    same_files s1 s'.
Proof.
  intros Hx Hi Hgen Hlock.
  destruct (generate_report_run h (main_generator h) s text Hgen Hlock)
    as (s1 & Hrun & _).
  exists s1. eexists. split; [exact Hrun|].
  unfold main_generator, __init__ in Hx, Hi.
  cbn [excel_path beam_image_path] in Hx, Hi.
  unfold IO.main. unfold IO.io_bind at 1. unfold IO.path_exists at 1.
  destruct (IO.disk s (IO.path_join h (IO.script_dir h) "Force Table.xlsx"));
    [|congruence].
  cbn [negb]. unfold IO.io_bind at 1. unfold IO.path_exists at 1.
  destruct (IO.disk s
              (IO.path_join h (IO.script_dir h) "simply_supported_beam.png"));
    [|congruence].
  cbn [negb]. fold (main_generator h).
  rewrite (io_bind_done _ _ _ _ _ Hrun).
  split; [reflexivity|].
  split; [cbn [IO.stdout]; rewrite <- app_assoc; reflexivity|].
  split; reflexivity.
Qed.

Lemma main_announces_completion_witness :
  IO.disk sample_start
    "/work/Beam_Analysis_Report.pdf" = None /\
  exists s1 s',
    IO.generate_report (broken_host uniform_load)
      (main_generator (broken_host uniform_load)) sample_start
    = (IO.Done (pdf_path (broken_host uniform_load)
                  (main_generator (broken_host uniform_load))), s1) /\
    IO.main (broken_host uniform_load) sample_start = (IO.Done tt, s') /\
    IO.stdout s'
    = (IO.stdout s1 ++
       [(newline ++ "[INFO] Report generation complete!")%string;
        ("[INFO] Output file: "
         ++ pdf_path (broken_host uniform_load)
              (main_generator (broken_host uniform_load)))%string])%list
    /\
    same_files s1 s'.
Proof.
  split; [reflexivity|].
  assert (Htext : exists text,
    generate_report (IO.env (broken_host uniform_load))
      (main_generator (broken_host uniform_load)) = Ok text).
  { eexists. vm_compute. reflexivity. }
  destruct Htext as [text Htext].
  apply (main_announces_completion (broken_host uniform_load) sample_start
           text).
  - discriminate.
  - discriminate.
  - exact Htext.
  - reflexivity.
Defined.

(** The whole of [main] on the machine whose typesetter fails: what is
    printed, what is started and what is left. *)
Example main_on_broken_machine :
  exists s',
    IO.main (broken_host uniform_load) sample_start = (IO.Done tt, s') /\
    IO.stdout s'
    = [ IO.times "=" 60;
        "BEAM ANALYSIS REPORT GENERATOR";
        IO.times "=" 60;
        "[INFO] Loading data from Excel file...";
        "[INFO] Loaded 5 data points";
        "[INFO] Beam length: 4 m";
        "[INFO] Generating LaTeX document...";
        "[INFO] Writing LaTeX file: /work/Beam_Analysis_Report.tex";
        "[INFO] Compiling LaTeX to PDF...";
        "[INFO] pdflatex run 1/2...";
        "[WARNING] pdflatex returned non-zero exit code: 1";
        "[INFO] pdflatex run 2/2...";
        "[WARNING] pdflatex returned non-zero exit code: 1";
        "[ERROR] PDF generation failed. Check the .tex file for errors.";
        (newline ++ "[INFO] Report generation complete!")%string;
        "[INFO] Output file: /work/Beam_Analysis_Report.pdf" ] /\
    IO.commands s'
    = [ typeset_command "/work" "Beam_Analysis_Report";
        typeset_command "/work" "Beam_Analysis_Report" ] /\
    IO.disk s' "/work/Beam_Analysis_Report.pdf" = None /\
    generate_report (IO.env (broken_host uniform_load)) sample_generator
    = option_map_result (IO.disk s' "/work/Beam_Analysis_Report.tex").
Proof.
  eexists. split; [vm_compute; reflexivity|].
  repeat split; vm_compute; reflexivity.
Qed.
